(** * Crawlplexity LiteLLM proxy: model registry, fuzzy resolution,
      selection and fallback execution

    A shallow embedding of the routing core of the two service variants

    - [src/litellm-service/app.py]      (module [Service]), and
    - [src/lib/litellm-service/app.py]  (module [LibService]),

    together with the stand-alone prefix stripper of
    [src/lib/litellm-service/test_prefix_stripping.py].

    Conventions of the embedding.

    - Python [str] is [string]; identifiers are taken to be ASCII, so
      [str.lower] is ASCII lower-casing and [str.strip] removes the ASCII
      white space characters.
    - Python [float] scores are embedded twice. In exact rational
      arithmetic ([Q], with the comparisons [Qgtb], [Qgeb], [Qltb] for
      [>], [>=], [<]) for the statements about the value of a score; and
      in IEEE binary64 (module [Binary64], on the kernel's [float]) for
      the statements in which the threshold test or the order of two
      nearly equal scores decides what the resolver returns. Costs are
      only compared with each other and are rationals.
    - Python [int] is [Z].
    - A registry entry (a [dict]) is the record [ModelConfig]; a key that
      the source reads with [dict.get(key, default)] is an [option] field.
      The record describes a descriptor whose priority, cost and task-type
      list are present and not null, as the static configuration, the
      discovery functions and the defaults of [DynamicModelConfig] give
      them. A descriptor stored with an explicit null in one of these
      fields makes selection raise a [TypeError]; such descriptors are not
      covered, and the statements below say so where it matters by being
      conditional on what a call returns.
    - A raised exception is an explicit result: [None] for the
      [ValueError]/[IndexError] of [min]/indexing on an empty list, and
      the constructor [Raised] for the [HTTPException] of the fallback
      engine.
    - The Redis store of dynamic descriptors is a [gmap] from the model id
      (the key without its [dynamic_model:] namespace) to the stored
      descriptor. *)

From Stdlib Require Import ZArith QArith Lqa Lia Ascii String List Bool.
From Stdlib Require Import Floats Uint63.
From stdpp Require Import base decidable option list gmap strings.

Open Scope string_scope.
Open Scope Z_scope.
Open Scope list_scope.

Set Warnings "-inexact-float".

(** ** Python primitives *)

(** Comparisons of floats, as booleans. *)
Definition Qltb (x y : Q) : bool := negb (Qle_bool y x).
Definition Qgtb (x y : Q) : bool := Qltb y x.
Definition Qgeb (x y : Q) : bool := Qle_bool y x.

(** [len(a) / len(b)]: true division of two lengths. *)
Definition py_ratio (a b : nat) : Q :=
  (inject_Z (Z.of_nat a) / inject_Z (Z.of_nat b))%Q.

(** Truthiness of a string: [if s:] holds for non-empty strings. *)
Definition truthy (s : string) : bool :=
  match s with
  | EmptyString => false
  | String _ _ => true
  end.

(** Truthiness of a list: [if xs:] holds for non-empty lists. *)
Definition list_truthy {A : Type} (xs : list A) : bool :=
  match xs with
  | [] => false
  | _ :: _ => true
  end.

(** [x in xs] for a list of strings. *)
Definition str_in (x : string) (xs : list string) : bool :=
  existsb (String.eqb x) xs.

(** [c.lower()] on one ASCII character. *)
Definition lower_ascii (c : ascii) : ascii :=
  let n := N_of_ascii c in
  if ((65 <=? n) && (n <=? 90))%N then ascii_of_N (n + 32) else c.

(** [s.lower()] *)
Fixpoint lower (s : string) : string :=
  match s with
  | EmptyString => EmptyString
  | String c s' => String (lower_ascii c) (lower s')
  end.

(** White space as [str.isspace] sees it on ASCII: TAB, LF, VT, FF, CR,
    FS, GS, RS, US and SPACE. *)
Definition py_isspace (c : ascii) : bool :=
  let n := N_of_ascii c in
  (((9 <=? n) && (n <=? 13)) || ((28 <=? n) && (n <=? 32)))%N.

Fixpoint lstrip (s : string) : string :=
  match s with
  | EmptyString => EmptyString
  | String c s' => if py_isspace c then lstrip s' else s
  end.

Fixpoint rstrip (s : string) : string :=
  match s with
  | EmptyString => EmptyString
  | String c s' =>
      let r := rstrip s' in
      if py_isspace c && negb (truthy r) then EmptyString else String c r
  end.

(** [s.strip()] *)
Definition strip (s : string) : string := rstrip (lstrip s).

(** [s.startswith(p)] *)
Fixpoint startswith (s p : string) {struct p} : bool :=
  match p with
  | EmptyString => true
  | String a p' =>
      match s with
      | EmptyString => false
      | String b s' => Ascii.eqb a b && startswith s' p'
      end
  end.

(** [needle in hay] for strings (substring test). *)
Fixpoint str_contains (hay needle : string) : bool :=
  startswith hay needle ||
  match hay with
  | EmptyString => false
  | String _ hay' => str_contains hay' needle
  end.

(** [c in s] for one character. *)
Fixpoint has_char (c : ascii) (s : string) : bool :=
  match s with
  | EmptyString => false
  | String d s' => Ascii.eqb c d || has_char c s'
  end.

(** [s.split(sep, maxsplit)] for a one-character separator: at most
    [maxsplit] cuts, the rest of the string is the last piece. *)
Fixpoint split (sep : ascii) (maxsplit : nat) (s : string) : list string :=
  match s with
  | EmptyString => [EmptyString]
  | String c s' =>
      if Ascii.eqb c sep then
        match maxsplit with
        | O => [s]
        | S k => EmptyString :: split sep k s'
        end
      else
        match split sep maxsplit s' with
        | p :: ps => String c p :: ps
        | [] => [String c EmptyString]
        end
  end.

(** [s.split(sep)] without a bound: a string of length [n] has at most
    [n] separators. *)
Definition split_all (sep : ascii) (s : string) : list string :=
  split sep (String.length s) s.

(** [sep.join(parts)] for a one-character separator. *)
Fixpoint join (sep : ascii) (parts : list string) : string :=
  match parts with
  | [] => EmptyString
  | [p] => p
  | p :: ps => p +:+ String sep (join sep ps)
  end.

(** [s[n:]] *)
Fixpoint drop_chars (n : nat) (s : string) : string :=
  match n, s with
  | O, _ => s
  | S k, String _ s' => drop_chars k s'
  | S _, EmptyString => EmptyString
  end.

(** [set(s)]: the set of characters of a string. *)
Definition char_set (s : string) : gset ascii :=
  list_to_set (list_ascii_of_string s).

(** [min(xs, key=k)]: the first element whose key is not exceeded by any
    other; [None] stands for the [ValueError] on an empty list. *)
Definition py_min {A K : Type} (ltb : K -> K -> bool) (key : A -> K)
    (xs : list A) : option A :=
  match xs with
  | [] => None
  | x :: rest =>
      Some (fold_left (fun best y => if ltb (key y) (key best) then y else best)
                      rest x)
  end.

(** ** Similarity resolver ([src/lib/litellm-service/app.py], lines 36-168) *)

Definition calculate_string_similarity (str1 str2 : string) : Q :=
  if String.eqb str1 str2 then 1%Q
  else if negb (truthy str1) || negb (truthy str2) then 0%Q
  else if str_contains str2 str1 || str_contains str1 str2 then
    let shorter := Nat.min (String.length str1) (String.length str2) in
    let longer := Nat.max (String.length str1) (String.length str2) in
    py_ratio shorter longer
  else
    let set1 := char_set str1 in
    let set2 := char_set str2 in
    let intersection := size (set1 ∩ set2) in
    let union := size (set1 ∪ set2) in
    if Nat.eqb union 0 then 0%Q else py_ratio intersection union.

Definition extract_model_parts (model_name : string) : string * string :=
  let model_name :=
    if has_char "/"%char model_name
    then nth 1 (split "/"%char 1 model_name) EmptyString
    else model_name in
  if has_char ":"%char model_name then
    match split ":"%char 1 model_name with
    | [base; params] => (strip base, strip params)
    | _ => (strip model_name, EmptyString)
    end
  else (strip model_name, EmptyString).

Definition calculate_model_similarity (requested available : string) : Q :=
  let req_lower := lower requested in
  let avail_lower := lower available in
  if String.eqb req_lower avail_lower then 1%Q
  else
    let '(req_base, req_params) := extract_model_parts req_lower in
    let '(avail_base, avail_params) := extract_model_parts avail_lower in
    let base_similarity := calculate_string_similarity req_base avail_base in
    let param_similarity :=
      if String.eqb req_params avail_params then 1%Q else (3 # 10)%Q in
    if Qgtb base_similarity (8 # 10)
       && negb (String.eqb req_params avail_params)
       && truthy req_params && truthy avail_params
    then (base_similarity * (1 # 2))%Q
    else (base_similarity * (7 # 10) + param_similarity * (3 # 10))%Q.

(** The remote-prefix cleaning of [find_best_model_match] (lines 50-59):
    any id that starts with [remote_] and has a second underscore loses
    everything up to that underscore. *)
Definition clean_requested (requested_model : string) : string :=
  if startswith requested_model "remote_" then
    match split "_"%char 2 requested_model with
    | _ :: _ :: rest :: _ => rest
    | _ => requested_model
    end
  else requested_model.

(** The scoring loop of [find_best_model_match] (lines 66-83); the state
    of the loop is the pair [(best_match, best_score)]. *)
Definition fuzzy_step (clean : string) (st : option string * Q)
    (available_model : string) : option string * Q :=
  let score := calculate_model_similarity clean available_model in
  if Qgtb score (snd st) && Qgeb score (7 # 10)
  then (Some available_model, score)
  else st.

Definition fuzzy_loop (clean : string) (available_models : list string)
    : option string * Q :=
  fold_left (fuzzy_step clean) available_models (None, 0%Q).

Definition find_best_model_match (requested_model : string)
    (available_models : list string) : option string :=
  if negb (truthy requested_model) || negb (list_truthy available_models)
  then None
  else
    let clean := clean_requested requested_model in
    if str_in clean available_models then Some clean
    else fst (fuzzy_loop clean available_models).

(** ** The resolver with scores in IEEE binary64

    The functions above compute the scores in exact arithmetic. CPython
    computes them in binary64, where two scores that are equal as
    fractions can differ in the last bit. The module below is the same
    code with the scores as [float]: [/], [*] and [+] are the correctly
    rounded operations, [>] and [>=] the IEEE comparisons. It is the
    embedding to use wherever the acceptance threshold or the order of
    near-ties decides the result. ([len(a) / len(b)] is the quotient of
    the two lengths converted exactly, as for all lengths below 2^53.) *)
Module Binary64.

Definition py_ratio (a b : nat) : float :=
  (PrimFloat.of_uint63 (Uint63.of_Z (Z.of_nat a))
   / PrimFloat.of_uint63 (Uint63.of_Z (Z.of_nat b)))%float.

Definition threshold : float := 0.7%float.

Definition calculate_string_similarity (str1 str2 : string) : float :=
  if String.eqb str1 str2 then 1%float
  else if negb (truthy str1) || negb (truthy str2) then 0%float
  else if str_contains str2 str1 || str_contains str1 str2 then
    let shorter := Nat.min (String.length str1) (String.length str2) in
    let longer := Nat.max (String.length str1) (String.length str2) in
    py_ratio shorter longer
  else
    let set1 := char_set str1 in
    let set2 := char_set str2 in
    let intersection := size (set1 ∩ set2) in
    let union := size (set1 ∪ set2) in
    if Nat.eqb union 0 then 0%float else py_ratio intersection union.

Definition calculate_model_similarity (requested available : string) : float :=
  let req_lower := lower requested in
  let avail_lower := lower available in
  if String.eqb req_lower avail_lower then 1%float
  else
    let '(req_base, req_params) := extract_model_parts req_lower in
    let '(avail_base, avail_params) := extract_model_parts avail_lower in
    let base_similarity := calculate_string_similarity req_base avail_base in
    let param_similarity :=
      if String.eqb req_params avail_params then 1%float else 0.3%float in
    if (0.8 <? base_similarity)%float
       && negb (String.eqb req_params avail_params)
       && truthy req_params && truthy avail_params
    then (base_similarity * 0.5)%float
    else (base_similarity * 0.7 + param_similarity * 0.3)%float.

Definition fuzzy_step (clean : string) (st : option string * float)
    (available_model : string) : option string * float :=
  let score := calculate_model_similarity clean available_model in
  if (snd st <? score)%float && (threshold <=? score)%float
  then (Some available_model, score)
  else st.

Definition fuzzy_loop (clean : string) (available_models : list string)
    : option string * float :=
  fold_left (fuzzy_step clean) available_models (None, 0%float).

Definition find_best_model_match (requested_model : string)
    (available_models : list string) : option string :=
  if negb (truthy requested_model) || negb (list_truthy available_models)
  then None
  else
    let clean := clean_requested requested_model in
    if str_in clean available_models then Some clean
    else fst (fuzzy_loop clean available_models).

End Binary64.

(** ** The stand-alone stripper of [test_prefix_stripping.py] *)

(** [c.isalnum()] on ASCII. *)
Definition py_isalnum_char (c : ascii) : bool :=
  let n := N_of_ascii c in
  (((48 <=? n) && (n <=? 57)) || ((65 <=? n) && (n <=? 90))
   || ((97 <=? n) && (n <=? 122)))%N.

Fixpoint all_chars (p : ascii -> bool) (s : string) : bool :=
  match s with
  | EmptyString => true
  | String c s' => p c && all_chars p s'
  end.

(** [s.isalnum()]: false on the empty string. *)
Definition py_isalnum (s : string) : bool := truthy s && all_chars py_isalnum_char s.

(** [s.replace('-', '')] *)
Fixpoint remove_char (d : ascii) (s : string) : string :=
  match s with
  | EmptyString => EmptyString
  | String c s' => if Ascii.eqb c d then remove_char d s' else String c (remove_char d s')
  end.

Definition strip_remote_prefixes (model_name : string) : string :=
  if negb (truthy model_name) then model_name
  else
    let model_name :=
      if startswith model_name "remote_" then
        match split_all "_"%char model_name with
        | _ :: potential_id :: (_ :: _) as rest =>
            if (3 <=? String.length potential_id)%nat
               && py_isalnum (remove_char "-"%char potential_id)
            then join "_"%char rest
            else model_name
        | _ => model_name
        end
      else model_name in
    let model_name :=
      if startswith model_name "remote-" then drop_chars 7 model_name
      else model_name in
    let model_name :=
      if startswith model_name "remote:" then drop_chars 7 model_name
      else model_name in
    strip model_name.

(** ** Registry entries and requests *)

(** One entry of [MODEL_CONFIGS] / [AVAILABLE_MODELS]. [api_key_env] and
    [task_types] are read with [dict.get]; [dynamic] is
    [m.get('dynamic', False)]. *)
Record ModelConfig : Type := {
  model : string;
  provider : string;
  api_key_env : option string;
  priority : Z;
  cost_per_1k_tokens : Q;
  task_types : option (list string);
  max_tokens : Z;
  dynamic : bool
}.

(** The fields of [ChatRequest] that selection and execution read. *)
Record ChatRequest : Type := {
  request_model : option string;
  request_max_tokens : option Z;
  request_task_type : option string;
  request_strategy : option string
}.

(** The arguments handed to [litellm.acompletion]: the model identifier
    and the token limit (the remaining keyword arguments are copied from
    the request and play no role below). *)
Record Kwargs : Type := {
  kw_model : string;
  kw_max_tokens : Z
}.

(** What the provider call does: return a completion or raise. *)
Inductive call_result : Type :=
| Completed (response : string)
| Failed (error : string).

(** What [try_with_fallback] does. *)
Inductive outcome : Type :=
| Returned (result : string) (selected_model : ModelConfig)
| Raised (status_code : Z) (detail : string)
| SelectionError
| LoopExhausted.

(** [task_type in config.get("task_types", ["general"])]; a request
    without task type ([None]) is in no list of strings. *)
Definition suits (task_type : option string) (config : ModelConfig) : bool :=
  match task_type with
  | Some t => str_in t (default ["general"] (task_types config))
  | None => false
  end.

(** The exact-id scan [for config in AVAILABLE_MODELS: if config["model"]
    == requested_model: return config]. *)
Definition find_config (AVAILABLE_MODELS : list ModelConfig) (name : string)
    : option ModelConfig :=
  List.find (fun config => String.eqb (model config) name) AVAILABLE_MODELS.

(** The candidate pool: entries suited to the task type, or every entry
    when none is. *)
Definition suitable_models (AVAILABLE_MODELS : list ModelConfig)
    (task_type : option string) : list ModelConfig :=
  let suitable := List.filter (suits task_type) AVAILABLE_MODELS in
  if list_truthy suitable then suitable else AVAILABLE_MODELS.

Definition strategy_is (strategy : option string) (name : string) : bool :=
  match strategy with
  | Some s => String.eqb s name
  | None => false
  end.

(** The strategy dispatch that ends [select_optimal_model] in both
    variants. *)
Definition apply_strategy (strategy : option string)
    (suitable : list ModelConfig) : option ModelConfig :=
  if strategy_is strategy "cost" then
    py_min Qltb cost_per_1k_tokens suitable
  else if strategy_is strategy "performance" then
    py_min Z.ltb priority suitable
  else if strategy_is strategy "local" then
    match List.filter (fun m => String.eqb (provider m) "ollama") suitable with
    | m :: _ => Some m
    | [] => head suitable
    end
  else
    py_min Z.ltb priority suitable.

(** [if requested_model:] on an optional string. *)
Definition requested (requested_model : option string) : option string :=
  match requested_model with
  | Some r => if truthy r then Some r else None
  | None => None
  end.

(** The body of the [for attempt in range(max_retries + 1)] loop of
    [try_with_fallback], identical in both variants up to the way the
    call arguments are built ([call_litellm]). The first component of the
    result is the list of descriptors attempted, in order. *)
Fixpoint attempt_loop (call_litellm : ChatRequest -> ModelConfig -> Kwargs)
    (acompletion : Kwargs -> call_result)
    (AVAILABLE_MODELS : list ModelConfig) (request : ChatRequest)
    (max_retries : nat) (attempts : list nat) (selected_model : ModelConfig)
    : list ModelConfig * outcome :=
  match attempts with
  | [] => ([], LoopExhausted)
  | attempt :: rest =>
      match acompletion (call_litellm request selected_model) with
      | Completed result => ([selected_model], Returned result selected_model)
      | Failed e =>
          let all_failed :=
            Raised 500 ("All LLM providers failed. Last error: " +:+ e) in
          if (attempt <? max_retries)%nat then
            let remaining_models :=
              List.filter
                (fun m => negb (String.eqb (model m) (model selected_model))
                          && suits (request_task_type request) m)
                AVAILABLE_MODELS in
            match py_min Z.ltb priority remaining_models with
            | Some next =>
                let '(tried, result) :=
                  attempt_loop call_litellm acompletion AVAILABLE_MODELS
                    request max_retries rest next in
                (selected_model :: tried, result)
            | None => ([selected_model], all_failed)
            end
          else ([selected_model], all_failed)
      end
  end.

(** ** [src/litellm-service/app.py] *)
Module Service.

Definition MODEL_CONFIGS : list ModelConfig := [
  {| model := "gpt-4o-mini"; provider := "openai";
     api_key_env := Some "OPENAI_API_KEY"; priority := 1;
     cost_per_1k_tokens := 15 # 100;
     task_types := Some ["general"; "search"; "summary"; "followup"];
     max_tokens := 4096; dynamic := false |};
  {| model := "claude-3-haiku-20240307"; provider := "anthropic";
     api_key_env := Some "ANTHROPIC_API_KEY"; priority := 2;
     cost_per_1k_tokens := 25 # 100;
     task_types := Some ["general"; "summary"; "followup"];
     max_tokens := 4096; dynamic := false |};
  {| model := "gemini-pro"; provider := "google";
     api_key_env := Some "GOOGLE_API_KEY"; priority := 3;
     cost_per_1k_tokens := 50 # 100;
     task_types := Some ["general"; "search"; "followup"];
     max_tokens := 2048; dynamic := false |};
  {| model := "mixtral-8x7b-32768"; provider := "groq";
     api_key_env := Some "GROQ_API_KEY"; priority := 4;
     cost_per_1k_tokens := 27 # 100;
     task_types := Some ["general"; "search"];
     max_tokens := 32768; dynamic := false |};
  {| model := "llama3.1:8b"; provider := "ollama";
     api_key_env := None; priority := 5;
     cost_per_1k_tokens := 0;
     task_types := Some ["general"; "summary"];
     max_tokens := 2048; dynamic := false |} ].

(** Lines 97-109: entries whose credential variable is set, and entries
    that need none. [env] is the set of variables with a non-empty value. *)
Definition load_available (env : gset string) : list ModelConfig :=
  List.filter
    (fun config =>
       match api_key_env config with
       | Some var => bool_decide (var ∈ env)
       | None => true
       end)
    MODEL_CONFIGS.

Definition select_optimal_model (AVAILABLE_MODELS : list ModelConfig)
    (task_type strategy requested_model : option string) : option ModelConfig :=
  let exact :=
    match requested requested_model with
    | Some r => find_config AVAILABLE_MODELS r
    | None => None
    end in
  match exact with
  | Some config => Some config
  | None => apply_strategy strategy (suitable_models AVAILABLE_MODELS task_type)
  end.

(** [request.max_tokens or min(selected_model["max_tokens"], 2000)] *)
Definition outbound_max_tokens (request : ChatRequest)
    (selected_model : ModelConfig) : Z :=
  match request_max_tokens request with
  | Some n => if n =? 0 then Z.min (max_tokens selected_model) 2000 else n
  | None => Z.min (max_tokens selected_model) 2000
  end.

Definition call_litellm (request : ChatRequest) (selected_model : ModelConfig)
    : Kwargs :=
  {| kw_model := model selected_model;
     kw_max_tokens := outbound_max_tokens request selected_model |}.

Definition try_with_fallback (acompletion : Kwargs -> call_result)
    (AVAILABLE_MODELS : list ModelConfig) (request : ChatRequest)
    (max_retries : nat) : list ModelConfig * outcome :=
  match select_optimal_model AVAILABLE_MODELS (request_task_type request)
          (request_strategy request) (request_model request) with
  | None => ([], SelectionError)
  | Some selected_model =>
      attempt_loop call_litellm acompletion AVAILABLE_MODELS request
        max_retries (seq 0 (max_retries + 1)) selected_model
  end.

End Service.

(** ** [src/lib/litellm-service/app.py] *)
Module LibService.

Definition MODEL_CONFIGS : list ModelConfig := [
  {| model := "gpt-4o-mini"; provider := "openai";
     api_key_env := Some "OPENAI_API_KEY"; priority := 1;
     cost_per_1k_tokens := 15 # 100;
     task_types := Some ["general"; "search"; "summary"; "followup"];
     max_tokens := 128000; dynamic := false |};
  {| model := "claude-3-haiku-20240307"; provider := "anthropic";
     api_key_env := Some "ANTHROPIC_API_KEY"; priority := 2;
     cost_per_1k_tokens := 25 # 100;
     task_types := Some ["general"; "summary"; "followup"];
     max_tokens := 200000; dynamic := false |};
  {| model := "gemini-pro"; provider := "google";
     api_key_env := Some "GOOGLE_API_KEY"; priority := 3;
     cost_per_1k_tokens := 50 # 100;
     task_types := Some ["general"; "search"; "followup"];
     max_tokens := 32768; dynamic := false |};
  {| model := "mixtral-8x7b-32768"; provider := "groq";
     api_key_env := Some "GROQ_API_KEY"; priority := 4;
     cost_per_1k_tokens := 27 # 100;
     task_types := Some ["general"; "search"];
     max_tokens := 32768; dynamic := false |};
  {| model := "llama3.1:8b"; provider := "ollama";
     api_key_env := None; priority := 5;
     cost_per_1k_tokens := 0;
     task_types := Some ["general"; "summary"];
     max_tokens := 128000; dynamic := false |} ].

(** The module-level state: the registry list and the Redis client
    ([None] when Redis could not be reached at start-up). *)
Record Registry : Type := {
  AVAILABLE_MODELS : list ModelConfig;
  redis_client : option (gmap string ModelConfig)
}.

Definition load_static_models (env : gset string) : list ModelConfig :=
  List.filter
    (fun config =>
       match api_key_env config with
       | Some var => bool_decide (var ∈ env)
       | None => true
       end)
    MODEL_CONFIGS.

(** Flagging a descriptor as dynamic ([... 'dynamic': True]). *)
Definition mark_dynamic (config : ModelConfig) : ModelConfig :=
  {| model := model config; provider := provider config;
     api_key_env := api_key_env config; priority := priority config;
     cost_per_1k_tokens := cost_per_1k_tokens config;
     task_types := task_types config; max_tokens := max_tokens config;
     dynamic := true |}.

(** Lines 368-397: the loader that is in force while the module
    initialises. It reads the hashes stored under [litellm:model:*]
    (here: [hashes]) and flags each of them dynamic. *)
Definition load_dynamic_models_at_startup {V : Type} (redis : option V)
    (hashes : list ModelConfig) : list ModelConfig :=
  match redis with
  | None => []
  | Some _ => List.map mark_dynamic hashes
  end.

(** Lines 517-540: the loader that replaces it afterwards and that every
    refresh calls: every value stored under [dynamic_model:*]. *)
Definition load_dynamic_models (redis : option (gmap string ModelConfig))
    : list ModelConfig :=
  match redis with
  | None => []
  | Some store => List.map snd (map_to_list store)
  end.

(** Lines 399-407: the registry after start-up. *)
Definition initial_registry (env : gset string) (hashes : list ModelConfig)
    (redis : option (gmap string ModelConfig)) : Registry :=
  {| AVAILABLE_MODELS :=
       load_static_models env ++ load_dynamic_models_at_startup redis hashes;
     redis_client := redis |}.

Definition refresh_models_from_redis (st : Registry) : Registry :=
  match redis_client st with
  | None => st
  | Some store =>
      let dynamic_models := load_dynamic_models (Some store) in
      let static_models :=
        List.filter (fun m => negb (dynamic m)) (AVAILABLE_MODELS st) in
      {| AVAILABLE_MODELS := static_models ++ dynamic_models;
         redis_client := Some store |}
  end.

(** Lines 1141-1158 of [add_dynamic_model], after a successful validation
    call: the descriptor is stored under its id, flagged dynamic, and the
    registry is refreshed. Without Redis the endpoint answers 503 and the
    state is unchanged. *)
Definition add_dynamic_model (config : ModelConfig) (st : Registry) : Registry :=
  match redis_client st with
  | None => st
  | Some store =>
      let model_data := mark_dynamic config in
      refresh_models_from_redis
        {| AVAILABLE_MODELS := AVAILABLE_MODELS st;
           redis_client := Some (<[model config := model_data]> store) |}
  end.

(** Lines 1202-1215 of [remove_dynamic_model]. *)
Definition remove_dynamic_model (model_name : string) (st : Registry) : Registry :=
  match redis_client st with
  | None => st
  | Some store =>
      match store !! model_name with
      | None => st
      | Some _ =>
          refresh_models_from_redis
            {| AVAILABLE_MODELS := AVAILABLE_MODELS st;
               redis_client := Some (delete model_name store) |}
      end
  end.

(** Lines 604-663: selection on the registry list as it stands after the
    refresh. *)
Definition select_from (AVAILABLE_MODELS : list ModelConfig)
    (task_type strategy requested_model : option string) : option ModelConfig :=
  let available_model_names := List.map model AVAILABLE_MODELS in
  let pinned :=
    match requested requested_model with
    | Some r =>
        match find_config AVAILABLE_MODELS r with
        | Some config => Some config
        | None =>
            match find_best_model_match r available_model_names with
            | Some fuzzy_match =>
                if truthy fuzzy_match
                then find_config AVAILABLE_MODELS fuzzy_match
                else None
            | None => None
            end
        end
    | None => None
    end in
  match pinned with
  | Some config => Some config
  | None => apply_strategy strategy (suitable_models AVAILABLE_MODELS task_type)
  end.

Definition select_optimal_model (st : Registry)
    (task_type strategy requested_model : option string)
    : Registry * option ModelConfig :=
  let st := refresh_models_from_redis st in
  (st, select_from (AVAILABLE_MODELS st) task_type strategy requested_model).

(** Lines 765-773. *)
Definition outbound_max_tokens (request : ChatRequest)
    (selected_model : ModelConfig) : Z :=
  match request_max_tokens request with
  | Some n =>
      if n =? 0 then Z.min 4096 (max_tokens selected_model)
      else Z.min n (max_tokens selected_model)
  | None => Z.min 4096 (max_tokens selected_model)
  end.

Definition call_litellm (request : ChatRequest) (selected_model : ModelConfig)
    : Kwargs :=
  {| kw_model := provider selected_model +:+ "/" +:+ model selected_model;
     kw_max_tokens := outbound_max_tokens request selected_model |}.

Definition try_with_fallback (acompletion : Kwargs -> call_result)
    (st : Registry) (request : ChatRequest) (max_retries : nat)
    : Registry * (list ModelConfig * outcome) :=
  let '(st, selected) :=
    select_optimal_model st (request_task_type request)
      (request_strategy request) (request_model request) in
  match selected with
  | None => (st, ([], SelectionError))
  | Some selected_model =>
      (st, attempt_loop call_litellm acompletion (AVAILABLE_MODELS st) request
             max_retries (seq 0 (max_retries + 1)) selected_model)
  end.

(** JSON values, as [json.loads] returns them and Pydantic dumps them. *)
#[local] Unset Elimination Schemes.
Inductive json : Type :=
| JNull
| JBool (b : bool)
| JInt (n : Z)
| JFloat (q : Q)
| JStr (s : string)
| JList (items : list json)
| JDict (fields : list (string * json)).
#[local] Set Elimination Schemes.

(** [default_value is not None] *)
Definition is_not_none (v : json) : bool :=
  match v with
  | JNull => false
  | _ => true
  end.

(** Lines 332-333: the fields that never receive a default. *)
Definition protected_fields : gset string := {[ "messages"; "model" ]}.

(** One round of the loop of [apply_parameter_defaults] (lines 335-342),
    for the schema entry [param_name : param_schema]. *)
Definition apply_default_step (param_name : string)
    (param_schema : gmap string json) (result : gmap string json)
    : gmap string json :=
  if bool_decide (param_name ∈ protected_fields) then result
  else
    match result !! param_name, param_schema !! "default" with
    | None, Some default_value =>
        if is_not_none default_value
        then <[param_name := default_value]> result
        else result
    | _, _ => result
    end.

(** Lines 328-344. The request and the schema are dictionaries; the loop
    visits every schema entry once. *)
Definition apply_parameter_defaults (request_data : gmap string json)
    (schema : gmap string (gmap string json)) : gmap string json :=
  map_fold apply_default_step request_data schema.

(** Lines 1420-1434 of [discover_litellm_models]: the descriptor built
    from one listed id, [None] when the id is skipped. The dictionary has
    no [dynamic] key yet; the keys [api_base], [temperature] and
    [litellm_model_id] are not part of [ModelConfig]. *)
Definition discovered_litellm_model (model_id : string) : option ModelConfig :=
  if truthy model_id && has_char "/"%char model_id then
    match split "/"%char 1 model_id with
    | [provider; model_name] =>
        Some {| model := model_name; provider := provider;
                api_key_env := None; priority := 999;
                cost_per_1k_tokens := 0;
                task_types := Some ["general"]; max_tokens := 32768;
                dynamic := false |}
    | _ => None
    end
  else None.

Definition discover_litellm_models (ids : list string) : list ModelConfig :=
  omap discovered_litellm_model ids.

(** Lines 1381-1395 of [discover_ollama_models]: the descriptor built from
    one listed name; a name whose part before the first colon is empty is
    skipped. *)
Definition discovered_ollama_model (name : string) : option ModelConfig :=
  let model_name := nth 0 (split_all ":"%char name) EmptyString in
  if truthy model_name then
    Some {| model := name; provider := "ollama";
            api_key_env := None; priority := 999;
            cost_per_1k_tokens := 0;
            task_types := Some ["general"]; max_tokens := 32768;
            dynamic := false |}
  else None.

Definition discover_ollama_models (names : list string) : list ModelConfig :=
  omap discovered_ollama_model names.

(** Lines 1318-1345 of [discover_remote_server]: every discovered
    descriptor is stored under its id, flagged dynamic, and the registry
    is refreshed. Without Redis the endpoint answers 503. *)
Definition register_discovered (discovered_models : list ModelConfig)
    (st : Registry) : Registry :=
  match redis_client st with
  | None => st
  | Some store =>
      refresh_models_from_redis
        {| AVAILABLE_MODELS := AVAILABLE_MODELS st;
           redis_client :=
             Some (fold_left
                     (fun s model_config =>
                        <[model model_config := mark_dynamic model_config]> s)
                     discovered_models store) |}
  end.

End LibService.

(** ** Inputs used in the examples below *)

(** A deployment with the OpenAI and Anthropic credentials set: the
    registry holds [gpt-4o-mini] (priority 1), [claude-3-haiku-20240307]
    (priority 2) and the key-less [llama3.1:8b] (priority 5), all of them
    eligible for the task type [general]. *)
Definition two_keys : gset string := {[ "OPENAI_API_KEY"; "ANTHROPIC_API_KEY" ]}.

(** A request with the default task type and strategy and no model. *)
Definition general_request : ChatRequest :=
  {| request_model := None; request_max_tokens := None;
     request_task_type := Some "general";
     request_strategy := Some "balanced" |}.

(** A provider capability that fails for every descriptor. *)
Definition always_fails (kwargs : Kwargs) : call_result :=
  Failed ("provider down: " +:+ kw_model kwargs).

(** A request that asks for far more tokens than any model offers. *)
Definition greedy_request : ChatRequest :=
  {| request_model := None; request_max_tokens := Some 999999;
     request_task_type := Some "general";
     request_strategy := Some "balanced" |}.

(** A dynamic descriptor registered with an empty id. *)
Definition unnamed_model : ModelConfig :=
  {| model := ""; provider := "custom"; api_key_env := None; priority := 999;
     cost_per_1k_tokens := 0; task_types := Some ["general"];
     max_tokens := 2048; dynamic := true |}.

(** A free local model registered with the best priority. *)
Definition phi4 : ModelConfig :=
  {| model := "phi4:latest"; provider := "ollama"; api_key_env := None;
     priority := 1; cost_per_1k_tokens := 0; task_types := Some ["general"];
     max_tokens := 2048; dynamic := true |}.

(** A dynamic descriptor registered under the id of a static one. *)
Definition gpt_again : ModelConfig :=
  {| model := "gpt-4o-mini"; provider := "openai"; api_key_env := None;
     priority := 999; cost_per_1k_tokens := 0; task_types := Some ["general"];
     max_tokens := 2048; dynamic := true |}.

(** A deployment with Redis reachable and empty, and no credential set:
    the registry starts with [llama3.1:8b] alone. *)
Definition local_only : LibService.Registry :=
  LibService.initial_registry ∅ [] (Some ∅).

(** Three descriptors with the costs 0.5, 0.15 and 0.27. *)
Definition three_costs : list ModelConfig :=
  [ {| model := "gemini-pro"; provider := "google";
       api_key_env := Some "GOOGLE_API_KEY"; priority := 3;
       cost_per_1k_tokens := 50 # 100;
       task_types := Some ["general"; "search"; "followup"];
       max_tokens := 32768; dynamic := false |};
    {| model := "gpt-4o-mini"; provider := "openai";
       api_key_env := Some "OPENAI_API_KEY"; priority := 1;
       cost_per_1k_tokens := 15 # 100;
       task_types := Some ["general"; "search"; "summary"; "followup"];
       max_tokens := 128000; dynamic := false |};
    {| model := "mixtral-8x7b-32768"; provider := "groq";
       api_key_env := Some "GROQ_API_KEY"; priority := 4;
       cost_per_1k_tokens := 27 # 100;
       task_types := Some ["general"; "search"];
       max_tokens := 32768; dynamic := false |} ].

(** ** Vocabulary of the statements *)

(** [best] is the first element of [xs] at which [score] is largest:
    everything before it scores strictly less, nothing after it scores
    more. *)
Definition first_maximum {A : Type} (score : A -> Q) (xs : list A) (best : A)
    : Prop :=
  exists before after,
    xs = before ++ best :: after
    /\ (forall x, In x before -> (score x < score best)%Q)
    /\ (forall x, In x after -> (score x <= score best)%Q).

(** [best] is the first element of [xs] at which [key] is smallest. *)
Definition first_minimum {A : Type} (key : A -> Q) (xs : list A) (best : A)
    : Prop :=
  exists before after,
    xs = before ++ best :: after
    /\ (forall x, In x before -> (key best < key x)%Q)
    /\ (forall x, In x after -> (key best <= key x)%Q).

(** [config] is the first entry of the registry list whose id is [name]. *)
Definition first_with_id (AVAILABLE_MODELS : list ModelConfig) (name : string)
    (config : ModelConfig) : Prop :=
  exists before after,
    AVAILABLE_MODELS = before ++ config :: after
    /\ model config = name
    /\ (forall x, In x before -> model x <> name).

(** The state of the scoring loop after the candidates [seen]. *)
Definition loop_state_ok (score : string -> Q) (seen : list string)
    (st : option string * Q) : Prop :=
  match fst st with
  | None => snd st = 0%Q /\ (forall m, In m seen -> (score m < 7 # 10)%Q)
  | Some best =>
      snd st = score best /\ (7 # 10 <= score best)%Q
      /\ first_maximum score seen best
  end.

(** Every descriptor of the store sits under its own id and carries the
    dynamic flag, as [add_dynamic_model] and [discover_remote_server]
    write it. *)
Definition store_keyed (store : gmap string ModelConfig) : Prop :=
  forall k d, store !! k = Some d -> model d = k /\ dynamic d = true.

(** [best] is the first element of the pool with the lowest priority
    number. *)
Definition first_lowest_priority (pool : list ModelConfig) (best : ModelConfig)
    : Prop :=
  exists before after,
    pool = before ++ best :: after
    /\ (forall x, In x before -> priority best < priority x)
    /\ (forall x, In x after -> priority best <= priority x).

(** [best] is the first element of the pool served by Ollama. *)
Definition first_local (pool : list ModelConfig) (best : ModelConfig) : Prop :=
  exists before after,
    pool = before ++ best :: after
    /\ provider best = "ollama"
    /\ (forall x, In x before -> provider x <> "ollama").

(** The call arguments that a variant builds for a descriptor make the
    provider fail. *)
Definition call_fails (call_litellm : ChatRequest -> ModelConfig -> Kwargs)
    (acompletion : Kwargs -> call_result) (request : ChatRequest)
    (m : ModelConfig) : Prop :=
  exists e, acompletion (call_litellm request m) = Failed e.

(** A provider capability that only serves Ollama models. *)
Definition only_ollama (kwargs : Kwargs) : call_result :=
  if startswith (kw_model kwargs) "ollama/" || String.eqb (kw_model kwargs) "llama3.1:8b"
  then Completed "ok"
  else Failed "no credit".

(** A request that carries no task type, as [ChatRequest] of
    [src/lib/litellm-service/app.py] defaults it. *)
Definition bare_request : ChatRequest :=
  {| request_model := None; request_max_tokens := None;
     request_task_type := None; request_strategy := None |}.

(** A schema with a default temperature, a default for the protected
    [model] field, and a null default. *)
Definition sample_schema : gmap string (gmap string LibService.json) :=
  {[ "temperature" := {[ "default" := LibService.JFloat (7 # 10) ]};
     "model" := {[ "default" := LibService.JStr "gpt-4o-mini" ]};
     "seed" := {[ "default" := LibService.JNull ]};
     "top_p" := {[ "type" := LibService.JStr "number" ]} ]}.

Definition sample_request_data : gmap string LibService.json :=
  {[ "stream" := LibService.JBool true ]}.

(** The shape of a finished fallback run: a bounded number of failed
    attempts followed by a last attempt that either succeeds, and is
    returned, or fails, and whose error the 500 response carries. *)
Definition fallback_run_ok (call_litellm : ChatRequest -> ModelConfig -> Kwargs)
    (acompletion : Kwargs -> call_result) (request : ChatRequest)
    (max_retries : nat) (run : list ModelConfig * outcome) : Prop :=
  exists earlier last,
    fst run = earlier ++ [last]
    /\ (length earlier <= max_retries)%nat
    /\ (forall x, In x earlier -> call_fails call_litellm acompletion request x)
    /\ ((exists result,
           snd run = Returned result last
           /\ acompletion (call_litellm request last) = Completed result)
        \/ (exists e,
              snd run
              = Raised 500 ("All LLM providers failed. Last error: " +:+ e)
              /\ acompletion (call_litellm request last) = Failed e)).

(** A registry without Redis that holds the three static descriptors of
    [two_keys]. *)
Definition static_registry : LibService.Registry :=
  LibService.initial_registry two_keys [] None.

(** [best] is the first element of [xs] at which the binary64 [score] is
    largest, in the terms of the comparisons the code makes: for no [x]
    before [best] is [score x >= score best] true, and for no [x] after it
    is [score x > score best] true. *)
Definition first_maximum_binary64 (score : string -> float) (xs : list string)
    (best : string) : Prop :=
  exists before after,
    xs = before ++ best :: after
    /\ (forall x, In x before -> (score best <=? score x)%float = false)
    /\ (forall x, In x after -> (score best <? score x)%float = false).

(** The state of the binary64 scoring loop after the candidates [seen]. *)
Definition loop_state_ok_binary64 (score : string -> float)
    (seen : list string) (st : option string * float) : Prop :=
  match fst st with
  | None =>
      snd st = 0%float
      /\ (forall m, In m seen -> (Binary64.threshold <=? score m)%float = false)
  | Some best =>
      snd st = score best
      /\ (Binary64.threshold <=? score best)%float = true
      /\ first_maximum_binary64 score seen best
  end.

(** A request and two candidates whose scores are both 59/80 as
    fractions: the first candidate contains the request's base (37 of 40
    characters) and has no variant tag, the second shares five of eight
    characters with it and has the request's tag. *)
Definition tie_request : string := "abcdeabcdeabcdeabcdeabcdeabcdeabcdeab:x".
Definition tie_first : string := "abcdeabcdeabcdeabcdeabcdeabcdeabcdeabaaa".
Definition tie_second : string := "edcbaxyz:x".

(** * Properties *)

(** ** Bridges between the boolean tests and their meaning *)

Lemma Qltb_lt (x y : Q) : Qltb x y = true <-> (x < y)%Q.
Proof.
  unfold Qltb. rewrite negb_true_iff. split.
  - intros H. apply Qnot_le_lt. intros Hle.
    apply Qle_bool_iff in Hle. congruence.
  - intros H. destruct (Qle_bool y x) eqn:E; [|reflexivity].
    apply Qle_bool_iff in E. exfalso. exact (Qlt_not_le _ _ H E).
Qed.

Lemma Qgtb_gt (x y : Q) : Qgtb x y = true <-> (y < x)%Q.
Proof. unfold Qgtb. apply Qltb_lt. Qed.

Lemma Qgeb_ge (x y : Q) : Qgeb x y = true <-> (y <= x)%Q.
Proof. unfold Qgeb. apply Qle_bool_iff. Qed.

Lemma Qltb_ge (x y : Q) : Qltb x y = false <-> (y <= x)%Q.
Proof.
  unfold Qltb. rewrite negb_false_iff. apply Qle_bool_iff.
Qed.

Lemma truthy_true (s : string) : truthy s = true <-> s <> "".
Proof. destruct s; simpl; split; intros; congruence. Qed.

Lemma str_in_In (x : string) (xs : list string) : str_in x xs = true <-> In x xs.
Proof.
  unfold str_in. rewrite existsb_exists. split.
  - intros [y [Hy Heq]]. apply String.eqb_eq in Heq. by subst.
  - intros H. exists x. split; [done | apply String.eqb_refl].
Qed.

(** ** C1: the fallback chain *)

(** C1 (evaluation at the failing input). With three eligible descriptors
    that all fail and [max_retries = 2], both variants of
    [try_with_fallback] attempt [gpt-4o-mini], then
    [claude-3-haiku-20240307], then [gpt-4o-mini] again: the reselection
    only excludes the descriptor that has just failed, so the third
    attempt repeats the first and [llama3.1:8b] is never tried. The call
    ends with the 500 error that carries the last error message. *)
Theorem try_with_fallback_repeats_descriptor :
  let registry := Service.load_available two_keys in
  let lib_registry := LibService.initial_registry two_keys [] None in
  let run := Service.try_with_fallback always_fails registry general_request 2 in
  let lib_run :=
    snd (LibService.try_with_fallback always_fails lib_registry general_request 2) in
  List.map model registry
    = ["gpt-4o-mini"; "claude-3-haiku-20240307"; "llama3.1:8b"]
  /\ List.map model (LibService.AVAILABLE_MODELS lib_registry)
    = ["gpt-4o-mini"; "claude-3-haiku-20240307"; "llama3.1:8b"]
  /\ forallb (suits (request_task_type general_request)) registry = true
  /\ forallb (suits (request_task_type general_request))
       (LibService.AVAILABLE_MODELS lib_registry) = true
  /\ List.map model (fst run)
    = ["gpt-4o-mini"; "claude-3-haiku-20240307"; "gpt-4o-mini"]
  /\ List.map model (fst lib_run)
    = ["gpt-4o-mini"; "claude-3-haiku-20240307"; "gpt-4o-mini"]
  /\ ~ NoDup (List.map model (fst run))
  /\ ~ NoDup (List.map model (fst lib_run))
  /\ snd run
    = Raised 500 "All LLM providers failed. Last error: provider down: gpt-4o-mini"
  /\ snd lib_run
    = Raised 500
        "All LLM providers failed. Last error: provider down: openai/gpt-4o-mini".
Proof.
  assert (Hdup : ~ NoDup ["gpt-4o-mini"; "claude-3-haiku-20240307"; "gpt-4o-mini"]).
  { intros H. apply NoDup_cons in H as [Hnotin _].
    apply Hnotin. apply list_elem_of_In. right. left. reflexivity. }
  cbv zeta.
  assert (E1 : List.map model
            (fst (Service.try_with_fallback always_fails
                    (Service.load_available two_keys) general_request 2))
          = ["gpt-4o-mini"; "claude-3-haiku-20240307"; "gpt-4o-mini"])
    by (vm_compute; reflexivity).
  assert (E2 : List.map model
            (fst (snd (LibService.try_with_fallback always_fails
                    (LibService.initial_registry two_keys [] None)
                    general_request 2)))
          = ["gpt-4o-mini"; "claude-3-haiku-20240307"; "gpt-4o-mini"])
    by (vm_compute; reflexivity).
  rewrite E1, E2.
  repeat split; try exact Hdup; vm_compute; reflexivity.
Qed.

(** What the reselection does guarantee: a retry never goes to the
    descriptor that has just failed, so two consecutive attempts always
    differ in their id. *)
Lemma py_min_In {A K : Type} (ltb : K -> K -> bool) (key : A -> K)
    (xs : list A) (best : A) :
  py_min ltb key xs = Some best -> In best xs.
Proof.
  destruct xs as [|x rest]; [discriminate|]. simpl. intros [= <-].
  assert (H : forall l b, In b (x :: rest) -> (forall y, In y l -> In y (x :: rest)) ->
            In (fold_left (fun best y => if ltb (key y) (key best) then y else best) l b)
               (x :: rest)).
  { induction l as [|y l IH]; intros b Hb Hl; simpl; [exact Hb|].
    apply IH.
    - destruct (ltb (key y) (key b)); [apply Hl; by left | exact Hb].
    - intros z Hz. apply Hl. by right. }
  apply H; [by left | intros y Hy; by right].
Qed.

Lemma attempt_loop_head (call_litellm : ChatRequest -> ModelConfig -> Kwargs)
    (acompletion : Kwargs -> call_result) (AVAILABLE_MODELS : list ModelConfig)
    (request : ChatRequest) (max_retries attempt : nat) (rest : list nat)
    (selected_model : ModelConfig) :
  exists tried,
    fst (attempt_loop call_litellm acompletion AVAILABLE_MODELS request
           max_retries (attempt :: rest) selected_model)
    = selected_model :: tried.
Proof.
  simpl. destruct (acompletion _); [by exists []|].
  destruct (attempt <? max_retries)%nat; [|by exists []].
  destruct (py_min _ _ _) as [next|]; [|by exists []].
  destruct (attempt_loop _ _ _ _ _ rest next) as [tried result].
  by exists tried.
Qed.

Lemma attempt_loop_adjacent_distinct
    (call_litellm : ChatRequest -> ModelConfig -> Kwargs)
    (acompletion : Kwargs -> call_result) (AVAILABLE_MODELS : list ModelConfig)
    (request : ChatRequest) (max_retries : nat) (attempts : list nat)
    (selected_model : ModelConfig) (i : nat) (a b : ModelConfig) :
  let tried :=
    fst (attempt_loop call_litellm acompletion AVAILABLE_MODELS request
           max_retries attempts selected_model) in
  tried !! i = Some a -> tried !! S i = Some b -> model a <> model b.
Proof.
  cbv zeta. revert selected_model i.
  induction attempts as [|attempt rest IH]; intros selected_model i;
    [by destruct i|].
  simpl. destruct (acompletion _); [by destruct i|].
  destruct (attempt <? max_retries)%nat; [|by destruct i].
  destruct (py_min _ _ _) as [next|] eqn:Emin; [|by destruct i].
  specialize (IH next).
  destruct rest as [|attempt' rest'].
  { simpl in *. by destruct i as [|[|i]]. }
  destruct (attempt_loop_head call_litellm acompletion AVAILABLE_MODELS request
              max_retries attempt' rest' next) as [tried' Htried].
  destruct (attempt_loop _ _ _ _ _ (attempt' :: rest') next) as [tried result].
  simpl in Htried. subst tried. simpl. destruct i as [|i].
  - simpl. intros [= <-] [= <-].
    apply py_min_In, filter_In in Emin as [_ Hcond].
    apply andb_true_iff in Hcond as [Hcond _].
    apply negb_true_iff, String.eqb_neq in Hcond. congruence.
  - simpl. apply (IH i).
Qed.

(** ** C2: prefix stripping *)

Lemma split_no_cut (sep : ascii) (s : string) : split sep 0 s = [s].
Proof.
  induction s as [|c s IH]; simpl; [reflexivity|].
  destruct (Ascii.eqb c sep); [reflexivity|]. by rewrite IH.
Qed.

Lemma split_first_piece (sep : ascii) (k : nat) (token rest : string) :
  has_char sep token = false ->
  split sep (S k) (token +:+ String sep rest) = token :: split sep k rest.
Proof.
  induction token as [|c token IH]; simpl.
  - intros _. by rewrite Ascii.eqb_refl.
  - intros H. apply orb_false_iff in H as [Hc Ht].
    rewrite Ascii.eqb_sym in Hc. rewrite Hc.
    by rewrite (IH Ht).
Qed.

(** The cleaning step of [find_best_model_match] strips whatever stands
    between the first two underscores, of any length and any shape. *)
Lemma clean_requested_any_token (token rest : string) :
  has_char "_"%char token = false ->
  clean_requested ("remote_" +:+ token +:+ String "_"%char rest) = rest.
Proof.
  intros H. unfold clean_requested.
  replace (startswith ("remote_" +:+ token +:+ String "_"%char rest) "remote_")
    with true by reflexivity.
  change ("remote_" +:+ token +:+ String "_"%char rest)
    with ("remote" +:+ String "_"%char (token +:+ String "_"%char rest)).
  rewrite (split_first_piece "_"%char 1 "remote") by reflexivity.
  rewrite (split_first_piece "_"%char 0 token) by exact H.
  by rewrite split_no_cut.
Qed.

(** C2 (evaluation at the failing input). [find_best_model_match] strips
    the prefix [remote_ab_] although the token [ab] has only two
    characters: the cleaned id is [model], which the exact test then
    finds in the candidate list. Left unstripped, the id would score
    8/15 against [model], below the threshold, and the scoring loop
    would return no match. The stand-alone [strip_remote_prefixes] of
    [test_prefix_stripping.py] leaves the id unchanged. *)
Theorem find_best_model_match_strips_short_token :
  clean_requested "remote_ab_model" = "model"
  /\ find_best_model_match "remote_ab_model" ["model"] = Some "model"
  /\ (calculate_model_similarity "remote_ab_model" "model" == 8 # 15)%Q
  /\ fst (fuzzy_loop "remote_ab_model" ["model"]) = None
  /\ strip_remote_prefixes "remote_ab_model" = "remote_ab_model".
Proof. repeat split; vm_compute; reflexivity. Qed.

(** ** C3: variant mismatch *)




(** ** C7: the token limit of the outbound call *)

(** In [src/lib/litellm-service/app.py] a requested limit is capped by the
    model's limit, and the default 4096 stands in when the request gives
    none (or gives 0, which Python treats as absent). *)
Lemma lib_outbound_max_tokens_clamped (request : ChatRequest)
    (selected_model : ModelConfig) :
  kw_max_tokens (LibService.call_litellm request selected_model)
  = match request_max_tokens request with
    | Some n => if n =? 0 then Z.min 4096 (max_tokens selected_model)
                else Z.min n (max_tokens selected_model)
    | None => Z.min 4096 (max_tokens selected_model)
    end.
Proof. reflexivity. Qed.

Lemma lib_outbound_max_tokens_bounded (request : ChatRequest)
    (selected_model : ModelConfig) :
  kw_max_tokens (LibService.call_litellm request selected_model)
  <= max_tokens selected_model.
Proof.
  rewrite lib_outbound_max_tokens_clamped.
  destruct (request_max_tokens request) as [n|]; [destruct (n =? 0)|]; lia.
Qed.

(** C7 (evaluation at the failing input). [gpt-4o-mini] of
    [src/litellm-service/app.py] has the limit 4096. Asked for 999999
    tokens, that variant's [call_litellm] passes 999999 on: the requested
    value is used as it is and only the default is capped. The variant of
    [src/lib/litellm-service/app.py] hands out 4096 for the same limit. *)
Theorem service_call_litellm_exceeds_model_limit :
  let selected := Service.select_optimal_model (Service.load_available two_keys)
                    (request_task_type greedy_request)
                    (request_strategy greedy_request)
                    (request_model greedy_request) in
  let capped := {| model := "gpt-4o-mini"; provider := "openai";
                   api_key_env := Some "OPENAI_API_KEY"; priority := 1;
                   cost_per_1k_tokens := 15 # 100;
                   task_types := Some ["general"]; max_tokens := 4096;
                   dynamic := false |} in
  option_map model selected = Some "gpt-4o-mini"
  /\ option_map max_tokens selected = Some 4096
  /\ option_map (fun m => kw_max_tokens (Service.call_litellm greedy_request m))
       selected = Some 999999
  /\ Z.min 999999 4096 = 4096
  /\ kw_max_tokens (LibService.call_litellm greedy_request capped) = 4096.
Proof. repeat split; vm_compute; reflexivity. Qed.

(** ** C4: the acceptance threshold and the order of ties *)

Lemma fuzzy_step_ok (clean : string) (seen : list string)
    (st : option string * Q) (m : string) :
  loop_state_ok (calculate_model_similarity clean) seen st ->
  loop_state_ok (calculate_model_similarity clean) (seen ++ [m])
    (fuzzy_step clean st m).
Proof.
  set (score := calculate_model_similarity clean).
  destruct st as [best_match best_score]. unfold loop_state_ok, fuzzy_step.
  simpl. fold score. intros Hinv.
  destruct (Qgtb (score m) best_score) eqn:Egt;
    destruct (Qgeb (score m) (7 # 10)) eqn:Ege; simpl.
  - (* the candidate takes over *)
    apply Qgtb_gt in Egt. apply Qgeb_ge in Ege.
    split; [reflexivity|]. split; [exact Ege|].
    exists seen, []. split; [reflexivity|]. split; [|intros x []].
    intros x Hx. destruct best_match as [best|].
    + destruct Hinv as (Hs & _ & before & after & Hseen & Hb & Ha).
      rewrite Hs in Egt. subst seen. apply in_app_or in Hx as [Hx|[<-|Hx]].
      * specialize (Hb x Hx). lra.
      * exact Egt.
      * specialize (Ha x Hx). lra.
    + destruct Hinv as [_ Hlow]. specialize (Hlow x Hx). lra.
  - (* above the best score so far, yet below the threshold *)
    apply Qgtb_gt in Egt.
    assert (Hlt : (score m < 7 # 10)%Q).
    { apply Qnot_le_lt. intros H. apply Qgeb_ge in H. congruence. }
    destruct best_match as [best|].
    + destruct Hinv as (Hs & Hge & _). rewrite Hs in Egt. lra.
    + destruct Hinv as [Hs Hlow]. split; [exact Hs|].
      intros x Hx. apply in_app_or in Hx as [Hx|[<-|[]]]; auto.
  - (* at most the best score so far *)
    apply Qltb_ge in Egt. apply Qgeb_ge in Ege.
    destruct best_match as [best|].
    + destruct Hinv as (Hs & Hge & before & after & Hseen & Hb & Ha).
      split; [exact Hs|]. split; [exact Hge|].
      exists before, (after ++ [m]). split.
      { subst seen. by rewrite <- app_assoc. }
      split; [exact Hb|].
      intros x Hx. apply in_app_or in Hx as [Hx|[<-|[]]]; auto.
      rewrite <- Hs. exact Egt.
    + destruct Hinv as [Hs _]. rewrite Hs in Egt. lra.
  - apply Qltb_ge in Egt.
    assert (Hlt : (score m < 7 # 10)%Q).
    { apply Qnot_le_lt. intros H. apply Qgeb_ge in H. congruence. }
    destruct best_match as [best|].
    + destruct Hinv as (Hs & Hge & before & after & Hseen & Hb & Ha).
      split; [exact Hs|]. split; [exact Hge|].
      exists before, (after ++ [m]). split.
      { subst seen. by rewrite <- app_assoc. }
      split; [exact Hb|].
      intros x Hx. apply in_app_or in Hx as [Hx|[<-|[]]]; auto.
      rewrite <- Hs. exact Egt.
    + destruct Hinv as [Hs Hlow]. split; [exact Hs|].
      intros x Hx. apply in_app_or in Hx as [Hx|[<-|[]]]; auto.
Qed.

Lemma fuzzy_fold_ok (clean : string) (rest seen : list string)
    (st : option string * Q) :
  loop_state_ok (calculate_model_similarity clean) seen st ->
  loop_state_ok (calculate_model_similarity clean) (seen ++ rest)
    (fold_left (fuzzy_step clean) rest st).
Proof.
  revert seen st. induction rest as [|m rest IH]; intros seen st Hinv; simpl.
  - by rewrite app_nil_r.
  - replace (seen ++ m :: rest) with ((seen ++ [m]) ++ rest)
      by (by rewrite <- app_assoc).
    apply IH. by apply fuzzy_step_ok.
Qed.

Lemma fuzzy_loop_ok (clean : string) (available_models : list string) :
  loop_state_ok (calculate_model_similarity clean) available_models
    (fuzzy_loop clean available_models).
Proof.
  apply (fuzzy_fold_ok clean available_models []).
  split; [reflexivity | intros m []].
Qed.

(** Order facts about the IEEE comparisons, read off their
    specification; each holds for every pair of floats, NaN included. *)
Ltac spec_float_order :=
  unfold SFltb, SFleb;
  repeat match goal with
         | x : spec_float |- _ => destruct x
         end;
  simpl; try discriminate; try reflexivity;
  repeat match goal with
         | s : bool |- _ => destruct s
         end;
  simpl; try discriminate; try reflexivity;
  change (Pos.compare_cont Eq) with Pos.compare;
  repeat match goal with
         | |- context [Z.compare ?a ?b] => destruct (Z.compare_spec a b)
         | |- context [Pos.compare ?a ?b] => destruct (Pos.compare_spec a b)
         end;
  simpl; try discriminate; try reflexivity; try lia.

Lemma SF_lt_le_trans (x y z : spec_float) :
  SFltb x y = true -> SFleb y z = true -> SFltb x z = true.
Proof. spec_float_order. Qed.

Lemma SF_le_lt_trans (x y z : spec_float) :
  SFleb x y = true -> SFltb y z = true -> SFltb x z = true.
Proof. spec_float_order. Qed.

Lemma SF_le_trans (x y z : spec_float) :
  SFleb x y = true -> SFleb y z = true -> SFleb x z = true.
Proof. spec_float_order. Qed.

Lemma SF_lt_le (x y : spec_float) : SFltb x y = true -> SFleb x y = true.
Proof. spec_float_order. Qed.

Lemma SF_lt_not_ge (x y : spec_float) : SFltb x y = true -> SFleb y x = false.
Proof. spec_float_order. Qed.

Lemma float_lt_le_trans (x y z : float) :
  (x <? y)%float = true -> (y <=? z)%float = true -> (x <? z)%float = true.
Proof.
  rewrite !FloatAxioms.ltb_spec, FloatAxioms.leb_spec. apply SF_lt_le_trans.
Qed.

Lemma float_le_lt_trans (x y z : float) :
  (x <=? y)%float = true -> (y <? z)%float = true -> (x <? z)%float = true.
Proof.
  rewrite !FloatAxioms.ltb_spec, FloatAxioms.leb_spec. apply SF_le_lt_trans.
Qed.

Lemma float_le_trans (x y z : float) :
  (x <=? y)%float = true -> (y <=? z)%float = true -> (x <=? z)%float = true.
Proof. rewrite !FloatAxioms.leb_spec. apply SF_le_trans. Qed.

Lemma float_lt_le (x y : float) :
  (x <? y)%float = true -> (x <=? y)%float = true.
Proof.
  rewrite FloatAxioms.ltb_spec, FloatAxioms.leb_spec. apply SF_lt_le.
Qed.

Lemma float_lt_not_ge (x y : float) :
  (x <? y)%float = true -> (y <=? x)%float = false.
Proof.
  rewrite FloatAxioms.ltb_spec, FloatAxioms.leb_spec. apply SF_lt_not_ge.
Qed.

Lemma binary64_fuzzy_step_ok (clean : string) (seen : list string)
    (st : option string * float) (m : string) :
  loop_state_ok_binary64 (Binary64.calculate_model_similarity clean) seen st ->
  loop_state_ok_binary64 (Binary64.calculate_model_similarity clean)
    (seen ++ [m]) (Binary64.fuzzy_step clean st m).
Proof.
  set (score := Binary64.calculate_model_similarity clean).
  destruct st as [best_match best_score].
  unfold loop_state_ok_binary64, Binary64.fuzzy_step.
  cbn [fst snd]. fold score. intros Hinv.
  destruct (best_score <? score m)%float eqn:Egt;
    destruct (Binary64.threshold <=? score m)%float eqn:Ege; cbn [andb fst snd].
  - (* the candidate takes over *)
    split; [reflexivity|]. split; [exact Ege|].
    exists seen, []. split; [reflexivity|]. split; [|intros x []].
    intros x Hx. destruct (score m <=? score x)%float eqn:Ex; [|reflexivity].
    exfalso. destruct best_match as [best|].
    + destruct Hinv as (Hs & _ & before & after & Hseen & Hb & Ha).
      rewrite Hs in Egt. subst seen.
      pose proof (float_lt_le_trans _ _ _ Egt Ex) as Hlt.
      apply in_app_or in Hx as [Hx|[<-|Hx]].
      * specialize (Hb x Hx). apply float_lt_le in Hlt. congruence.
      * apply float_lt_not_ge in Egt. congruence.
      * specialize (Ha x Hx). congruence.
    + destruct Hinv as [_ Hlow]. specialize (Hlow x Hx).
      pose proof (float_le_trans _ _ _ Ege Ex). congruence.
  - (* above the best score so far, yet below the threshold *)
    destruct best_match as [best|].
    + exfalso. destruct Hinv as (Hs & Hge & _). rewrite Hs in Egt.
      pose proof (float_le_lt_trans _ _ _ Hge Egt) as Hlt.
      apply float_lt_le in Hlt. congruence.
    + destruct Hinv as [Hs Hlow]. split; [exact Hs|].
      intros x Hx. apply in_app_or in Hx as [Hx|[<-|[]]]; auto.
  - (* at most the best score so far *)
    destruct best_match as [best|].
    + destruct Hinv as (Hs & Hge & before & after & Hseen & Hb & Ha).
      split; [exact Hs|]. split; [exact Hge|].
      exists before, (after ++ [m]). split.
      { subst seen. by rewrite <- app_assoc. }
      split; [exact Hb|].
      intros x Hx. apply in_app_or in Hx as [Hx|[<-|[]]]; auto.
      by rewrite <- Hs.
    + exfalso. destruct Hinv as [Hs _]. rewrite Hs in Egt.
      assert (H0 : (0 <? Binary64.threshold)%float = true)
        by (vm_compute; reflexivity).
      pose proof (float_lt_le_trans 0%float Binary64.threshold (score m) H0 Ege).
      congruence.
  - destruct best_match as [best|].
    + destruct Hinv as (Hs & Hge & before & after & Hseen & Hb & Ha).
      split; [exact Hs|]. split; [exact Hge|].
      exists before, (after ++ [m]). split.
      { subst seen. by rewrite <- app_assoc. }
      split; [exact Hb|].
      intros x Hx. apply in_app_or in Hx as [Hx|[<-|[]]]; auto.
      by rewrite <- Hs.
    + destruct Hinv as [Hs Hlow]. split; [exact Hs|].
      intros x Hx. apply in_app_or in Hx as [Hx|[<-|[]]]; auto.
Qed.

Lemma binary64_fuzzy_fold_ok (clean : string) (rest seen : list string)
    (st : option string * float) :
  loop_state_ok_binary64 (Binary64.calculate_model_similarity clean) seen st ->
  loop_state_ok_binary64 (Binary64.calculate_model_similarity clean)
    (seen ++ rest) (fold_left (Binary64.fuzzy_step clean) rest st).
Proof.
  revert seen st. induction rest as [|m rest IH]; intros seen st Hinv; simpl.
  - by rewrite app_nil_r.
  - replace (seen ++ m :: rest) with ((seen ++ [m]) ++ rest)
      by (by rewrite <- app_assoc).
    apply IH. by apply binary64_fuzzy_step_ok.
Qed.

Lemma binary64_fuzzy_loop_ok (clean : string) (available_models : list string) :
  loop_state_ok_binary64 (Binary64.calculate_model_similarity clean)
    available_models (Binary64.fuzzy_loop clean available_models).
Proof.
  apply (binary64_fuzzy_fold_ok clean available_models []).
  split; [reflexivity | intros m []].
Qed.

(** C4 (as amended). For a non-empty request, the resolver returns the
    cleaned request itself whenever it is one of the candidates, wherever
    it stands in the list. Otherwise it returns a candidate exactly when
    some candidate scores at least 0.70 in binary64; the candidate
    returned scores at least 0.70 (a score of exactly 0.70 is accepted),
    no candidate scores more, and no candidate before it in the list
    scores as much, so that among candidates tied at the maximum the first
    is returned; when every candidate scores below 0.70 the resolver
    returns no match. *)
Theorem resolver_accepts_first_maximum (requested_model : string)
    (available_models : list string) :
  requested_model <> "" ->
  let clean := clean_requested requested_model in
  let score := Binary64.calculate_model_similarity clean in
  let result := Binary64.find_best_model_match requested_model available_models in
  (In clean available_models -> result = Some clean)
  /\ (~ In clean available_models ->
      (forall best, result = Some best ->
         (Binary64.threshold <=? score best)%float = true
         /\ first_maximum_binary64 score available_models best)
      /\ (result = None ->
          forall m, In m available_models ->
            (Binary64.threshold <=? score m)%float = false)
      /\ ((exists m, In m available_models
                     /\ (Binary64.threshold <=? score m)%float = true) ->
          exists best, result = Some best)).
Proof.
  intros Hreq clean score result.
  apply truthy_true in Hreq.
  split.
  - intros Hin. subst result. unfold Binary64.find_best_model_match.
    rewrite Hreq. destruct available_models as [|a l]; [destruct Hin|].
    cbn [list_truthy negb orb]. fold clean.
    apply str_in_In in Hin. by rewrite Hin.
  - intros Hnotin.
    assert (Hres : available_models <> [] ->
                   result = fst (Binary64.fuzzy_loop clean available_models)).
    { intros Hne. subst result. unfold Binary64.find_best_model_match.
      rewrite Hreq. destruct available_models as [|a l]; [done|].
      cbn [list_truthy negb orb]. fold clean.
      destruct (str_in clean (a :: l)) eqn:E; [|reflexivity].
      apply str_in_In in E. contradiction. }
    pose proof (binary64_fuzzy_loop_ok clean available_models) as Hok.
    unfold loop_state_ok_binary64 in Hok. fold score in Hok.
    destruct available_models as [|a l] eqn:El.
    { split; [|split].
      - subst result. unfold Binary64.find_best_model_match.
        rewrite Hreq. discriminate.
      - intros _ m [].
      - intros (m & [] & _). }
    rewrite <- El in *.
    assert (Hne : available_models <> []) by (rewrite El; discriminate).
    rewrite (Hres Hne). split; [|split].
    + intros best Hbest. rewrite Hbest in Hok. tauto.
    + intros Hnone. rewrite Hnone in Hok. tauto.
    + intros (m & Hm & Hge).
      destruct (fst (Binary64.fuzzy_loop clean available_models)) as [best|];
        [by exists best|].
      destruct Hok as [_ Hlow]. specialize (Hlow m Hm). congruence.
Qed.

(** At [tie_request] the two candidates tie as fractions, 59/80 each, but
    in binary64 the first scores 0.7374999999999999 and the second 0.7375:
    the second is returned. *)
Lemma resolver_accepts_first_maximum_witness :
  Binary64.find_best_model_match tie_request [tie_first; tie_second]
  = Some tie_second
  /\ (calculate_model_similarity tie_request tie_first == 59 # 80)%Q
  /\ (calculate_model_similarity tie_request tie_second == 59 # 80)%Q
  /\ (Binary64.calculate_model_similarity tie_request tie_first
      <? Binary64.calculate_model_similarity tie_request tie_second)%float
     = true
  /\ (Binary64.threshold
      <=? Binary64.calculate_model_similarity (clean_requested tie_request)
            tie_second)%float = true
  /\ first_maximum_binary64
       (Binary64.calculate_model_similarity (clean_requested tie_request))
       [tie_first; tie_second] tie_second.
Proof.
  split; [vm_compute; reflexivity|].
  split; [vm_compute; reflexivity|].
  split; [vm_compute; reflexivity|].
  split; [vm_compute; reflexivity|].
  destruct (resolver_accepts_first_maximum tie_request [tie_first; tie_second])
    as [_ H].
  - discriminate.
  - destruct H as (H & _ & _).
    + intros [E|[E|[]]]; vm_compute in E; discriminate.
    + apply (H tie_second). vm_compute. reflexivity.
Defined.

(** C4 (counterexample). The request [remote_x1_gpt-4o-mini] is cleaned to
    [gpt-4o-mini]. Both candidates score 1.0 against it, the maximum; the
    resolver returns the second one, because the cleaned request is found
    in the list before any score is computed. *)
Lemma exact_hit_returns_later_candidate :
  clean_requested "remote_x1_gpt-4o-mini" = "gpt-4o-mini"
  /\ Binary64.calculate_model_similarity "gpt-4o-mini" "openai/gpt-4o-mini"
     = 1%float
  /\ Binary64.calculate_model_similarity "gpt-4o-mini" "gpt-4o-mini" = 1%float
  /\ (calculate_model_similarity "gpt-4o-mini" "openai/gpt-4o-mini" == 1)%Q
  /\ Binary64.find_best_model_match "remote_x1_gpt-4o-mini"
       ["openai/gpt-4o-mini"; "gpt-4o-mini"] = Some "gpt-4o-mini"
  /\ find_best_model_match "remote_x1_gpt-4o-mini"
       ["openai/gpt-4o-mini"; "gpt-4o-mini"] = Some "gpt-4o-mini"
  /\ fst (Binary64.fuzzy_loop "gpt-4o-mini"
            ["openai/gpt-4o-mini"; "gpt-4o-mini"]) = Some "openai/gpt-4o-mini".
Proof. repeat split; vm_compute; reflexivity. Qed.

(** When the cleaned id is not itself a candidate, the resolver's answer
    is the answer of the scoring loop. *)
Lemma find_best_model_match_fuzzy_path (requested_model : string)
    (available_models : list string) :
  requested_model <> "" -> available_models <> [] ->
  ~ In (clean_requested requested_model) available_models ->
  find_best_model_match requested_model available_models
  = fst (fuzzy_loop (clean_requested requested_model) available_models).
Proof.
  intros Hreq Havail Hnotin. unfold find_best_model_match.
  apply truthy_true in Hreq. rewrite Hreq.
  destruct available_models as [|a l]; [done|]. simpl negb. simpl orb.
  destruct (str_in (clean_requested requested_model) (a :: l)) eqn:E;
    [|reflexivity].
  apply str_in_In in E. contradiction.
Qed.

(** ** C5: exact match precedence *)

Lemma find_config_first (AVAILABLE_MODELS : list ModelConfig) (name : string)
    (config : ModelConfig) :
  In config AVAILABLE_MODELS -> model config = name ->
  exists chosen,
    find_config AVAILABLE_MODELS name = Some chosen
    /\ first_with_id AVAILABLE_MODELS name chosen.
Proof.
  induction AVAILABLE_MODELS as [|c l IH]; intros Hin Hname; [destruct Hin|].
  unfold find_config. simpl.
  destruct (String.eqb (model c) name) eqn:E.
  - exists c. split; [reflexivity|]. apply String.eqb_eq in E.
    exists [], l. split; [reflexivity|]. split; [exact E|]. intros x [].
  - apply String.eqb_neq in E.
    destruct Hin as [->|Hin]; [contradiction|].
    destruct (IH Hin Hname) as (chosen & Hfind & before & after & Hl & Hm & Hb).
    exists chosen. split; [exact Hfind|].
    exists (c :: before), after. split; [by rewrite Hl|]. split; [exact Hm|].
    intros x [<-|Hx]; auto.
Qed.

Lemma first_with_id_unique (AVAILABLE_MODELS : list ModelConfig)
    (name : string) (chosen config : ModelConfig) :
  first_with_id AVAILABLE_MODELS name chosen ->
  In config AVAILABLE_MODELS -> model config = name ->
  NoDup (List.map model AVAILABLE_MODELS) -> chosen = config.
Proof.
  intros (before & after & -> & Hm & Hb) Hin Hname Hnodup.
  apply in_app_or in Hin as [Hin|[Heq|Hin]].
  - exfalso. exact (Hb config Hin Hname).
  - exact Heq.
  - exfalso. rewrite map_app in Hnodup. simpl in Hnodup.
    apply NoDup_app in Hnodup as (_ & _ & Hnodup).
    apply NoDup_cons in Hnodup as [Hnotin _]. apply Hnotin.
    apply list_elem_of_In. rewrite Hm, <- Hname. by apply in_map.
Qed.

(** C5 (as amended). For a non-empty requested id that is the id of some
    registry entry, both variants of the selector return the first entry
    of the snapshot with that id, whatever the task type, the strategy
    and the other entries are; when ids are unique in the snapshot this is
    the entry itself. *)
Theorem select_returns_first_exact_match (AVAILABLE_MODELS : list ModelConfig)
    (task_type strategy : option string) (requested_model : string)
    (config : ModelConfig) :
  requested_model <> "" ->
  In config AVAILABLE_MODELS -> model config = requested_model ->
  exists chosen,
    Service.select_optimal_model AVAILABLE_MODELS task_type strategy
      (Some requested_model) = Some chosen
    /\ LibService.select_from AVAILABLE_MODELS task_type strategy
         (Some requested_model) = Some chosen
    /\ first_with_id AVAILABLE_MODELS requested_model chosen
    /\ (NoDup (List.map model AVAILABLE_MODELS) -> chosen = config).
Proof.
  intros Hreq Hin Hname.
  destruct (find_config_first _ _ _ Hin Hname) as (chosen & Hfind & Hfirst).
  exists chosen.
  unfold Service.select_optimal_model, LibService.select_from, requested.
  apply truthy_true in Hreq. rewrite Hreq, Hfind.
  split; [reflexivity|]. split; [reflexivity|]. split; [exact Hfirst|].
  intros Hnodup. by eapply first_with_id_unique.
Qed.

Lemma select_returns_first_exact_match_witness :
  exists chosen,
    Service.select_optimal_model (Service.load_available two_keys)
      (Some "search") (Some "cost") (Some "llama3.1:8b") = Some chosen
    /\ LibService.select_from (Service.load_available two_keys)
         (Some "search") (Some "cost") (Some "llama3.1:8b") = Some chosen
    /\ first_with_id (Service.load_available two_keys) "llama3.1:8b" chosen
    /\ (NoDup (List.map model (Service.load_available two_keys)) ->
        chosen = nth 4 Service.MODEL_CONFIGS unnamed_model).
Proof.
  apply (select_returns_first_exact_match (Service.load_available two_keys)
           (Some "search") (Some "cost") "llama3.1:8b"
           (nth 4 Service.MODEL_CONFIGS unnamed_model)).
  - congruence.
  - vm_compute. right. right. left. reflexivity.
  - reflexivity.
Defined.

(** C5 (counterexample). A registry that holds a descriptor with the
    empty id, asked for the empty id: [if requested_model:] is false, the
    exact scan is skipped and the strategy picks [llama3.1:8b]. *)
Lemma select_skips_empty_requested_id :
  let registry :=
    LibService.AVAILABLE_MODELS
      (LibService.add_dynamic_model unnamed_model local_only) in
  List.map model registry = ["llama3.1:8b"; ""]
  /\ In unnamed_model registry
  /\ model unnamed_model = ""
  /\ LibService.select_from registry (Some "general") (Some "balanced")
       (Some "") <> Some unnamed_model
  /\ Service.select_optimal_model registry (Some "general") (Some "balanced")
       (Some "") <> Some unnamed_model
  /\ option_map model
       (LibService.select_from registry (Some "general") (Some "balanced")
          (Some "")) = Some "llama3.1:8b".
Proof.
  cbv zeta. split; [vm_compute; reflexivity|].
  split; [vm_compute; right; left; reflexivity|].
  split; [reflexivity|].
  split; [|split].
  - intros H. apply (f_equal (option_map model)) in H. vm_compute in H.
    discriminate.
  - intros H. apply (f_equal (option_map model)) in H. vm_compute in H.
    discriminate.
  - vm_compute. reflexivity.
Qed.

(** ** C6: the cost strategy *)

Lemma fold_min_first_minimum {A : Type} (key : A -> Q) (rest seen : list A)
    (best : A) :
  first_minimum key seen best ->
  first_minimum key (seen ++ rest)
    (fold_left (fun best y => if Qltb (key y) (key best) then y else best)
       rest best).
Proof.
  revert seen best. induction rest as [|y rest IH]; intros seen best Hmin; simpl.
  - by rewrite app_nil_r.
  - replace (seen ++ y :: rest) with ((seen ++ [y]) ++ rest)
      by (by rewrite <- app_assoc).
    apply IH. destruct Hmin as (before & after & Hseen & Hb & Ha).
    destruct (Qltb (key y) (key best)) eqn:E.
    + apply Qltb_lt in E. exists seen, []. split; [reflexivity|].
      split; [|intros x []].
      intros x Hx. subst seen. apply in_app_or in Hx as [Hx|[<-|Hx]].
      * specialize (Hb x Hx). lra.
      * exact E.
      * specialize (Ha x Hx). lra.
    + apply Qltb_ge in E. exists before, (after ++ [y]). split.
      { subst seen. by rewrite <- app_assoc. }
      split; [exact Hb|].
      intros x Hx. apply in_app_or in Hx as [Hx|[<-|[]]]; auto.
Qed.

Lemma py_min_first_minimum {A : Type} (key : A -> Q) (xs : list A) :
  xs <> [] ->
  exists best, py_min Qltb key xs = Some best /\ first_minimum key xs best.
Proof.
  destruct xs as [|x rest]; [done|]. intros _. simpl.
  eexists. split; [reflexivity|].
  apply (fold_min_first_minimum key rest [x] x).
  exists [], []. split; [reflexivity|]. split; intros y [].
Qed.

Lemma suitable_models_nonempty (AVAILABLE_MODELS : list ModelConfig)
    (task_type : option string) :
  AVAILABLE_MODELS <> [] -> suitable_models AVAILABLE_MODELS task_type <> [].
Proof.
  intros H. unfold suitable_models.
  destruct (List.filter (suits task_type) AVAILABLE_MODELS); simpl; done.
Qed.

(** C6 (as amended). Under the strategy [cost] and without a requested
    model, both variants of the selector return, from a non-empty
    registry, the first descriptor of the candidate pool whose cost is the
    minimum: no descriptor of the pool is cheaper, and every descriptor
    before it in pool order costs strictly more. For the costs 0.5, 0.15
    and 0.27 the descriptor that costs 0.15 is selected. *)
Theorem cost_strategy_selects_first_cheapest :
  (forall (AVAILABLE_MODELS : list ModelConfig) (task_type : option string),
     AVAILABLE_MODELS <> [] ->
     exists chosen,
       Service.select_optimal_model AVAILABLE_MODELS task_type (Some "cost") None
         = Some chosen
       /\ LibService.select_from AVAILABLE_MODELS task_type (Some "cost") None
         = Some chosen
       /\ first_minimum cost_per_1k_tokens
            (suitable_models AVAILABLE_MODELS task_type) chosen)
  /\ List.map cost_per_1k_tokens (suitable_models three_costs (Some "general"))
     = [50 # 100; 15 # 100; 27 # 100]%Q
  /\ option_map cost_per_1k_tokens
       (Service.select_optimal_model three_costs (Some "general") (Some "cost")
          None) = Some (15 # 100)%Q
  /\ option_map cost_per_1k_tokens
       (LibService.select_from three_costs (Some "general") (Some "cost") None)
     = Some (15 # 100)%Q.
Proof.
  split; [|repeat split; vm_compute; reflexivity].
  intros AVAILABLE_MODELS task_type Hne.
  destruct (py_min_first_minimum cost_per_1k_tokens
              (suitable_models AVAILABLE_MODELS task_type))
    as (chosen & Hmin & Hfirst).
  { by apply suitable_models_nonempty. }
  exists chosen.
  unfold Service.select_optimal_model, LibService.select_from, requested,
    apply_strategy. simpl. rewrite Hmin. auto.
Qed.

Lemma cost_strategy_selects_first_cheapest_witness :
  exists chosen,
    Service.select_optimal_model three_costs (Some "search") (Some "cost") None
      = Some chosen
    /\ LibService.select_from three_costs (Some "search") (Some "cost") None
      = Some chosen
    /\ first_minimum cost_per_1k_tokens
         (suitable_models three_costs (Some "search")) chosen.
Proof.
  apply (proj1 cost_strategy_selects_first_cheapest three_costs (Some "search")).
  discriminate.
Defined.

(** C6 (counterexample). [llama3.1:8b] (priority 5) and the dynamic
    [phi4:latest] (priority 1) both cost nothing; the strategy [cost]
    returns [llama3.1:8b], the first of the two in the list, not the one
    with the lower priority. *)
Lemma cost_tie_ignores_priority :
  let registry :=
    LibService.AVAILABLE_MODELS (LibService.add_dynamic_model phi4 local_only) in
  List.map (fun m => (model m, cost_per_1k_tokens m, priority m))
    (suitable_models registry (Some "general"))
  = [("llama3.1:8b", 0%Q, 5); ("phi4:latest", 0%Q, 1)]
  /\ option_map model
       (LibService.select_from registry (Some "general") (Some "cost") None)
     = Some "llama3.1:8b"
  /\ option_map model
       (Service.select_optimal_model registry (Some "general") (Some "cost")
          None)
     = Some "llama3.1:8b"
  /\ 1 < 5.
Proof. cbv zeta. repeat split; vm_compute; reflexivity. Qed.

(** ** C8: ids in the combined registry *)

Lemma map_fmap {A B : Type} (f : A -> B) (l : list A) : List.map f l = f <$> l.
Proof. induction l as [|x l IH]; simpl; [reflexivity | by rewrite IH]. Qed.

Lemma store_keyed_empty : store_keyed ∅.
Proof. intros k d H. by rewrite lookup_empty in H. Qed.

(** Registering a descriptor keeps the store keyed by id; the entry that
    sat under the same id, if any, is replaced. *)
Lemma store_keyed_insert (store : gmap string ModelConfig) (config : ModelConfig) :
  store_keyed store ->
  store_keyed (<[model config := LibService.mark_dynamic config]> store).
Proof.
  intros Hk k d. rewrite lookup_insert. case_decide as E.
  - intros [= <-]. by subst k.
  - apply Hk.
Qed.

Lemma store_keyed_delete (store : gmap string ModelConfig) (name : string) :
  store_keyed store -> store_keyed (delete name store).
Proof.
  intros Hk k d. rewrite lookup_delete. case_decide; [done | apply Hk].
Qed.

Lemma dynamic_ids_are_keys (store : gmap string ModelConfig) :
  store_keyed store ->
  List.map model (LibService.load_dynamic_models (Some store))
  = (map_to_list store).*1.
Proof.
  intros Hk. unfold LibService.load_dynamic_models.
  rewrite !map_fmap, <- list_fmap_compose.
  apply list_fmap_ext. intros i [k d] Hi. simpl.
  apply list_elem_of_lookup_2, elem_of_map_to_list in Hi.
  by destruct (Hk k d Hi).
Qed.

Lemma dynamic_ids_NoDup (store : gmap string ModelConfig) :
  store_keyed store ->
  NoDup (List.map model (LibService.load_dynamic_models (Some store))).
Proof.
  intros Hk. rewrite (dynamic_ids_are_keys store Hk).
  apply NoDup_fst_map_to_list.
Qed.

Lemma dynamic_id_stored (store : gmap string ModelConfig) (name : string) :
  store_keyed store ->
  name ∈ List.map model (LibService.load_dynamic_models (Some store))
  <-> is_Some (store !! name).
Proof.
  intros Hk. rewrite (dynamic_ids_are_keys store Hk). split.
  - intros H. apply list_elem_of_fmap in H as ([k d] & -> & Hkd).
    apply elem_of_map_to_list in Hkd. by exists d.
  - intros [d Hd]. apply list_elem_of_fmap. exists (name, d).
    split; [reflexivity|]. by apply elem_of_map_to_list.
Qed.

Lemma loaded_models_are_dynamic (store : gmap string ModelConfig)
    (config : ModelConfig) :
  store_keyed store ->
  In config (LibService.load_dynamic_models (Some store)) ->
  dynamic config = true.
Proof.
  intros Hk Hin. unfold LibService.load_dynamic_models in Hin.
  apply in_map_iff in Hin as ([k d] & <- & Hkd). simpl.
  apply list_elem_of_In, elem_of_map_to_list in Hkd.
  by destruct (Hk k d Hkd).
Qed.

Lemma filter_static_idem (l : list ModelConfig) :
  List.filter (fun m => negb (dynamic m))
    (List.filter (fun m => negb (dynamic m)) l)
  = List.filter (fun m => negb (dynamic m)) l.
Proof.
  induction l as [|m l IH]; simpl; [reflexivity|].
  destruct (dynamic m) eqn:E; simpl; [exact IH|].
  rewrite E. simpl. by rewrite IH.
Qed.

Lemma filter_static_dynamic (l : list ModelConfig) :
  (forall m, In m l -> dynamic m = true) ->
  List.filter (fun m => negb (dynamic m)) l = [].
Proof.
  induction l as [|m l IH]; intros H; simpl; [reflexivity|].
  rewrite (H m) by (by left). simpl. apply IH. intros x Hx. apply H. by right.
Qed.

(** The static part of the registry survives every refresh unchanged. *)
Lemma refresh_keeps_static (st : LibService.Registry)
    (store : gmap string ModelConfig) :
  LibService.redis_client st = Some store -> store_keyed store ->
  List.filter (fun m => negb (dynamic m))
    (LibService.AVAILABLE_MODELS (LibService.refresh_models_from_redis st))
  = List.filter (fun m => negb (dynamic m)) (LibService.AVAILABLE_MODELS st).
Proof.
  intros Hredis Hk. unfold LibService.refresh_models_from_redis.
  rewrite Hredis. simpl. rewrite List.filter_app, filter_static_idem.
  rewrite (filter_static_dynamic (List.map snd (map_to_list store))).
  - by rewrite app_nil_r.
  - intros m Hm. by apply (loaded_models_are_dynamic store).
Qed.

(** C8 (as amended). A refresh rebuilds the registry as the static
    entries of the previous snapshot followed by the descriptors of the
    dynamic store. The store holds one descriptor per id, so the ids of
    the dynamic entries never repeat, also after a descriptor has been
    registered under an id that was already stored (the new descriptor
    replaces the old one). A dynamic descriptor whose id is the id of a
    static entry is listed after the static entries, next to its
    namesake: the ids of the refreshed registry are unique exactly when
    the static ids are unique and no static id is stored as a dynamic
    id. *)
Theorem refresh_ids_unique_iff (st : LibService.Registry)
    (store : gmap string ModelConfig) :
  LibService.redis_client st = Some store -> store_keyed store ->
  let static_models :=
    List.filter (fun m => negb (dynamic m)) (LibService.AVAILABLE_MODELS st) in
  let refreshed :=
    LibService.AVAILABLE_MODELS (LibService.refresh_models_from_redis st) in
  refreshed = static_models ++ LibService.load_dynamic_models (Some store)
  /\ NoDup (List.map model (LibService.load_dynamic_models (Some store)))
  /\ (forall config,
        NoDup (List.map model
                 (LibService.load_dynamic_models
                    (Some (<[model config := LibService.mark_dynamic config]> store))))
        /\ <[model config := LibService.mark_dynamic config]> store !! model config
           = Some (LibService.mark_dynamic config))
  /\ (NoDup (List.map model refreshed)
      <-> NoDup (List.map model static_models)
          /\ (forall m, In m static_models -> store !! model m = None)).
Proof.
  intros Hredis Hk static_models refreshed.
  assert (Href : refreshed
                 = static_models ++ LibService.load_dynamic_models (Some store)).
  { subst refreshed static_models. unfold LibService.refresh_models_from_redis.
    by rewrite Hredis. }
  split; [exact Href|]. split; [by apply dynamic_ids_NoDup|]. split.
  { intros config. split.
    - by apply dynamic_ids_NoDup, store_keyed_insert.
    - apply lookup_insert_eq. }
  rewrite Href, map_app, NoDup_app. split.
  - intros (Hs & Hdisj & _). split; [exact Hs|].
    intros m Hm. destruct (store !! model m) as [d|] eqn:E; [|reflexivity].
    exfalso. apply (Hdisj (model m)).
    + apply list_elem_of_In. by apply in_map.
    + apply (dynamic_id_stored store (model m) Hk). by exists d.
  - intros [Hs Hfree]. split; [exact Hs|]. split; [|by apply dynamic_ids_NoDup].
    intros name Hname Hdyn.
    apply list_elem_of_In, in_map_iff in Hname as (m & <- & Hm).
    apply (dynamic_id_stored store (model m) Hk) in Hdyn as [d Hd].
    rewrite (Hfree m Hm) in Hd. discriminate.
Qed.

Lemma refresh_ids_unique_iff_witness :
  let st := LibService.add_dynamic_model phi4 local_only in
  let store : gmap string ModelConfig := {[ "phi4:latest" := phi4 ]} in
  let static_models :=
    List.filter (fun m => negb (dynamic m)) (LibService.AVAILABLE_MODELS st) in
  let refreshed :=
    LibService.AVAILABLE_MODELS (LibService.refresh_models_from_redis st) in
  refreshed = static_models ++ LibService.load_dynamic_models (Some store)
  /\ NoDup (List.map model (LibService.load_dynamic_models (Some store)))
  /\ (forall config,
        NoDup (List.map model
                 (LibService.load_dynamic_models
                    (Some (<[model config := LibService.mark_dynamic config]> store))))
        /\ <[model config := LibService.mark_dynamic config]> store !! model config
           = Some (LibService.mark_dynamic config))
  /\ (NoDup (List.map model refreshed)
      <-> NoDup (List.map model static_models)
          /\ (forall m, In m static_models -> store !! model m = None)).
Proof.
  apply (refresh_ids_unique_iff (LibService.add_dynamic_model phi4 local_only)
           {[ "phi4:latest" := phi4 ]}).
  - vm_compute. reflexivity.
  - intros k d H. apply lookup_singleton_Some in H as [<- <-]. by split.
Defined.

(** C8 (counterexample). With the OpenAI and Anthropic credentials set,
    registering a dynamic descriptor under the id [gpt-4o-mini] leaves
    the static [gpt-4o-mini] in place and appends the dynamic one: the
    registry lists the id twice, and still does after another refresh. *)
Lemma dynamic_id_duplicates_static :
  let st :=
    LibService.add_dynamic_model gpt_again
      (LibService.initial_registry two_keys [] (Some ∅)) in
  List.map (fun m => (model m, dynamic m)) (LibService.AVAILABLE_MODELS st)
  = [("gpt-4o-mini", false); ("claude-3-haiku-20240307", false);
     ("llama3.1:8b", false); ("gpt-4o-mini", true)]
  /\ ~ NoDup (List.map model (LibService.AVAILABLE_MODELS st))
  /\ ~ NoDup (List.map model
               (LibService.AVAILABLE_MODELS
                  (LibService.refresh_models_from_redis st))).
Proof.
  cbv zeta.
  assert (E : List.map model
                (LibService.AVAILABLE_MODELS
                   (LibService.add_dynamic_model gpt_again
                      (LibService.initial_registry two_keys [] (Some ∅))))
              = ["gpt-4o-mini"; "claude-3-haiku-20240307"; "llama3.1:8b";
                 "gpt-4o-mini"]) by (vm_compute; reflexivity).
  assert (E' : List.map model
                (LibService.AVAILABLE_MODELS
                   (LibService.refresh_models_from_redis
                      (LibService.add_dynamic_model gpt_again
                         (LibService.initial_registry two_keys [] (Some ∅)))))
              = ["gpt-4o-mini"; "claude-3-haiku-20240307"; "llama3.1:8b";
                 "gpt-4o-mini"]) by (vm_compute; reflexivity).
  rewrite E, E'.
  assert (Hdup : ~ NoDup ["gpt-4o-mini"; "claude-3-haiku-20240307";
                          "llama3.1:8b"; "gpt-4o-mini"]).
  { intros H. apply NoDup_cons in H as [Hnotin _]. apply Hnotin.
    apply list_elem_of_In. right. right. left. reflexivity. }
  split; [vm_compute; reflexivity|]. split; exact Hdup.
Qed.

(** ** C10: letter case *)

Lemma lower_ascii_idem (c : ascii) : lower_ascii (lower_ascii c) = lower_ascii c.
Proof. destruct c as [[] [] [] [] [] [] [] []]; reflexivity. Qed.

Lemma lower_idem (s : string) : lower (lower s) = lower s.
Proof.
  induction s as [|c s IH]; simpl; [reflexivity|].
  by rewrite lower_ascii_idem, IH.
Qed.

Lemma lower_empty (s : string) : lower s = "" -> s = "".
Proof. destruct s; simpl; [reflexivity | discriminate]. Qed.

Lemma similarity_of_case_variants (a b : string) :
  lower a = lower b -> calculate_model_similarity a b = 1%Q.
Proof.
  intros H. unfold calculate_model_similarity. by rewrite H, String.eqb_refl.
Qed.

Lemma py_ratio_le_1 (a b : nat) : (a <= b)%nat -> (py_ratio a b <= 1)%Q.
Proof.
  intros H. unfold py_ratio. destruct b as [|b].
  - replace a with 0%nat by lia. vm_compute. discriminate.
  - apply Qle_shift_div_r.
    + unfold Qlt. simpl. lia.
    + rewrite Qmult_1_l. rewrite <- Zle_Qle. lia.
Qed.

Lemma calculate_string_similarity_le_1 (str1 str2 : string) :
  (calculate_string_similarity str1 str2 <= 1)%Q.
Proof.
  unfold calculate_string_similarity.
  destruct (String.eqb str1 str2); [lra|].
  destruct (negb (truthy str1) || negb (truthy str2)); [lra|].
  destruct (str_contains str2 str1 || str_contains str1 str2).
  - apply py_ratio_le_1. lia.
  - destruct (Nat.eqb _ 0); [lra|].
    apply py_ratio_le_1. apply subseteq_size.
    intros x Hx. apply elem_of_intersection in Hx as [Hx _].
    by apply elem_of_union_l.
Qed.

Lemma calculate_model_similarity_le_1 (requested available : string) :
  (calculate_model_similarity requested available <= 1)%Q.
Proof.
  unfold calculate_model_similarity.
  destruct (String.eqb (lower requested) (lower available)); [lra|].
  destruct (extract_model_parts (lower requested)) as [req_base req_params].
  destruct (extract_model_parts (lower available)) as [avail_base avail_params].
  pose proof (calculate_string_similarity_le_1 req_base avail_base) as Hb.
  destruct (Qgtb _ _ && _ && _ && _); [lra|].
  destruct (String.eqb req_params avail_params); lra.
Qed.

(** C10 (as amended). The similarity of two identifiers is the similarity
    of their lower-cased forms, and identifiers that are equal up to
    letter case score exactly 1. A requested id that differs from a
    candidate only in letter case, and that the remote-prefix cleaning
    leaves as it is, is resolved by [find_best_model_match] to a candidate
    that scores 1. *)
Theorem similarity_ignores_case :
  (forall a b : string,
     calculate_model_similarity a b
     = calculate_model_similarity (lower a) (lower b))
  /\ (forall a b : string,
        lower a = lower b -> calculate_model_similarity a b = 1%Q)
  /\ (forall (requested_model registry_id : string)
             (available_models : list string),
        In registry_id available_models ->
        requested_model <> registry_id ->
        lower requested_model = lower registry_id ->
        clean_requested requested_model = requested_model ->
        exists m,
          find_best_model_match requested_model available_models = Some m
          /\ In m available_models
          /\ (calculate_model_similarity requested_model m == 1)%Q).
Proof.
  split; [|split].
  - intros a b. unfold calculate_model_similarity. by rewrite !lower_idem.
  - exact similarity_of_case_variants.
  - intros requested_model registry_id available_models Hin Hne Hlow Hclean.
    assert (Hreq : requested_model <> "").
    { intros ->. apply Hne. symmetry. apply lower_empty. by rewrite <- Hlow. }
    assert (Havail : available_models <> []) by (by destruct available_models).
    unfold find_best_model_match.
    apply truthy_true in Hreq. rewrite Hreq.
    destruct available_models as [|a l] eqn:El; [done|].
    rewrite <- El in *. replace (list_truthy available_models) with true
      by (by rewrite El). simpl negb. simpl orb. rewrite Hclean.
    destruct (str_in requested_model available_models) eqn:Ein.
    + exists requested_model. split; [reflexivity|].
      split; [by apply str_in_In|].
      by rewrite similarity_of_case_variants.
    + pose proof (fuzzy_loop_ok requested_model available_models) as Hok.
      unfold loop_state_ok in Hok.
      pose proof (similarity_of_case_variants _ _ Hlow) as Hone.
      destruct (fst (fuzzy_loop requested_model available_models))
        as [best|].
      * destruct Hok as (_ & _ & before & after & Hsplit & Hb & Ha).
        exists best. split; [reflexivity|]. split.
        { rewrite Hsplit. apply in_or_app. right. by left. }
        pose proof (calculate_model_similarity_le_1 requested_model best) as Hle.
        apply Qle_antisym; [exact Hle|].
        rewrite Hsplit in Hin. apply in_app_or in Hin as [Hi|[Hi|Hi]].
        -- specialize (Hb _ Hi). rewrite Hone in Hb. lra.
        -- subst best. rewrite Hone. lra.
        -- specialize (Ha _ Hi). rewrite Hone in Ha. exact Ha.
      * destruct Hok as [_ Hlow']. specialize (Hlow' _ Hin).
        rewrite Hone in Hlow'. exfalso. revert Hlow'. vm_compute. discriminate.
Qed.

Lemma similarity_ignores_case_witness :
  exists m,
    find_best_model_match "GPT-4o-Mini" ["openai/gpt-4o-mini"; "gpt-4o-mini"]
    = Some m
    /\ In m ["openai/gpt-4o-mini"; "gpt-4o-mini"]
    /\ (calculate_model_similarity "GPT-4o-Mini" m == 1)%Q.
Proof.
  apply (proj2 (proj2 similarity_ignores_case) "GPT-4o-Mini" "gpt-4o-mini").
  - right. left. reflexivity.
  - discriminate.
  - vm_compute. reflexivity.
  - vm_compute. reflexivity.
Defined.

(** C10 (counterexample). [remote_gpu_llama] and [Remote_GPU_Llama] are
    equal up to letter case and score 1 against each other, yet the
    resolver first cuts the request down to [llama], which scores 83/160
    against the registry id: no match is returned. *)
Lemma case_variant_lost_to_prefix_cleaning :
  lower "remote_gpu_llama" = lower "Remote_GPU_Llama"
  /\ "remote_gpu_llama" <> "Remote_GPU_Llama"
  /\ calculate_model_similarity "remote_gpu_llama" "Remote_GPU_Llama" = 1%Q
  /\ clean_requested "remote_gpu_llama" = "llama"
  /\ (calculate_model_similarity "llama" "Remote_GPU_Llama" == 83 # 160)%Q
  /\ find_best_model_match "remote_gpu_llama" ["Remote_GPU_Llama"] = None.
Proof.
  split; [vm_compute; reflexivity|]. split; [discriminate|].
  repeat split; vm_compute; reflexivity.
Qed.

(** * Further properties of the resolver *)

Lemma py_ratio_nonneg (a b : nat) : (0 <= py_ratio a b)%Q.
Proof.
  unfold py_ratio, Qdiv. apply Qmult_le_0_compat.
  - unfold Qle. simpl. lia.
  - apply Qinv_le_0_compat. unfold Qle. simpl. lia.
Qed.

Lemma calculate_string_similarity_nonneg (str1 str2 : string) :
  (0 <= calculate_string_similarity str1 str2)%Q.
Proof.
  unfold calculate_string_similarity.
  destruct (String.eqb str1 str2); [lra|].
  destruct (negb (truthy str1) || negb (truthy str2)); [lra|].
  destruct (str_contains str2 str1 || str_contains str1 str2);
    [apply py_ratio_nonneg|].
  destruct (Nat.eqb _ 0); [lra | apply py_ratio_nonneg].
Qed.

(** X1. Every similarity score lies between 0 and 1, as the docstring of
    [calculate_model_similarity] promises. *)
Theorem calculate_model_similarity_in_unit_interval (requested available : string) :
  (0 <= calculate_model_similarity requested available)%Q
  /\ (calculate_model_similarity requested available <= 1)%Q.
Proof.
  split; [|apply calculate_model_similarity_le_1].
  unfold calculate_model_similarity.
  destruct (String.eqb (lower requested) (lower available)); [lra|].
  destruct (extract_model_parts (lower requested)) as [req_base req_params].
  destruct (extract_model_parts (lower available)) as [avail_base avail_params].
  pose proof (calculate_string_similarity_nonneg req_base avail_base) as Hb.
  destruct (Qgtb _ _ && _ && _ && _); [lra|].
  destruct (String.eqb req_params avail_params); lra.
Qed.

Lemma calculate_string_similarity_sym (str1 str2 : string) :
  calculate_string_similarity str1 str2 = calculate_string_similarity str2 str1.
Proof.
  unfold calculate_string_similarity.
  rewrite (String.eqb_sym str1 str2).
  rewrite (orb_comm (negb (truthy str1))).
  rewrite (orb_comm (str_contains str2 str1)).
  rewrite (Nat.min_comm (String.length str1)).
  rewrite (Nat.max_comm (String.length str1)).
  assert (Ei : char_set str1 ∩ char_set str2 = char_set str2 ∩ char_set str1)
    by (apply set_eq; intros x; rewrite !elem_of_intersection; tauto).
  assert (Eu : char_set str1 ∪ char_set str2 = char_set str2 ∪ char_set str1)
    by (apply set_eq; intros x; rewrite !elem_of_union; tauto).
  rewrite Ei, Eu.
  reflexivity.
Qed.

(** X2. The similarity score does not depend on which of the two ids is
    the request and which the candidate. *)
Theorem calculate_model_similarity_sym (a b : string) :
  calculate_model_similarity a b = calculate_model_similarity b a.
Proof.
  unfold calculate_model_similarity.
  rewrite (String.eqb_sym (lower a) (lower b)).
  destruct (String.eqb (lower b) (lower a)); [reflexivity|].
  destruct (extract_model_parts (lower a)) as [a_base a_params].
  destruct (extract_model_parts (lower b)) as [b_base b_params].
  rewrite (calculate_string_similarity_sym a_base b_base).
  rewrite (String.eqb_sym a_params b_params).
  destruct (Qgtb _ _), (String.eqb b_params a_params), (truthy a_params),
    (truthy b_params); reflexivity.
Qed.

Lemma lower_app (a b : string) : lower (a +:+ b) = lower a +:+ lower b.
Proof. induction a as [|c a IH]; simpl; [reflexivity | by rewrite IH]. Qed.

Lemma lower_ascii_slash (c : ascii) :
  Ascii.eqb "/" (lower_ascii c) = Ascii.eqb "/" c.
Proof. destruct c as [[] [] [] [] [] [] [] []]; reflexivity. Qed.

Lemma has_slash_lower (s : string) :
  has_char "/"%char (lower s) = has_char "/"%char s.
Proof.
  induction s as [|c s IH]; cbn [has_char lower]; [reflexivity|].
  by rewrite lower_ascii_slash, IH.
Qed.

Lemma has_char_app_sep (sep : ascii) (a b : string) :
  has_char sep (a +:+ String sep b) = true.
Proof.
  induction a as [|c a IH]; simpl.
  - by rewrite Ascii.eqb_refl.
  - rewrite IH. apply orb_true_r.
Qed.

Lemma length_app_sep (sep : ascii) (a b : string) :
  String.length (a +:+ String sep b) = S (String.length a + String.length b).
Proof. induction a as [|c a IH]; simpl; [reflexivity | by rewrite IH]. Qed.

Lemma length_lower (s : string) : String.length (lower s) = String.length s.
Proof. induction s as [|c s IH]; simpl; [reflexivity | by rewrite IH]. Qed.

Lemma extract_model_parts_provider_prefix (p m : string) :
  has_char "/"%char p = false -> has_char "/"%char m = false ->
  extract_model_parts (p +:+ String "/"%char m) = extract_model_parts m.
Proof.
  intros Hp Hm. unfold extract_model_parts.
  rewrite has_char_app_sep, Hm.
  rewrite (split_first_piece "/"%char 0 p m Hp), split_no_cut.
  reflexivity.
Qed.

(** X3. A provider prefix is ignored by the scoring: [provider/name]
    scores 1 against [name], in either direction, whenever neither part
    contains a further slash. *)
Theorem provider_prefix_scores_one (p m : string) :
  has_char "/"%char p = false -> has_char "/"%char m = false ->
  extract_model_parts (lower (p +:+ String "/"%char m))
    = extract_model_parts (lower m)
  /\ (calculate_model_similarity (p +:+ String "/"%char m) m == 1)%Q
  /\ (calculate_model_similarity m (p +:+ String "/"%char m) == 1)%Q.
Proof.
  intros Hp Hm.
  assert (Hparts : extract_model_parts (lower (p +:+ String "/"%char m))
                   = extract_model_parts (lower m)).
  { rewrite lower_app. simpl lower.
    change (lower_ascii "/") with "/"%char.
    apply extract_model_parts_provider_prefix; by rewrite has_slash_lower. }
  split; [exact Hparts|].
  assert (Hscore : (calculate_model_similarity (p +:+ String "/"%char m) m == 1)%Q).
  { unfold calculate_model_similarity. rewrite Hparts.
    destruct (String.eqb (lower (p +:+ String "/"%char m)) (lower m)) eqn:E.
    - apply String.eqb_eq in E. apply (f_equal String.length) in E.
      rewrite !length_lower, length_app_sep in E. lia.
    - destruct (extract_model_parts (lower m)) as [base params].
      unfold calculate_string_similarity.
      rewrite !String.eqb_refl. simpl negb. rewrite andb_false_r. simpl.
      reflexivity. }
  split; [exact Hscore|]. by rewrite calculate_model_similarity_sym.
Qed.

Lemma provider_prefix_scores_one_witness :
  extract_model_parts (lower "anthropic/claude-3-haiku-20240307")
    = extract_model_parts (lower "claude-3-haiku-20240307")
  /\ (calculate_model_similarity "anthropic/claude-3-haiku-20240307"
        "claude-3-haiku-20240307" == 1)%Q
  /\ (calculate_model_similarity "claude-3-haiku-20240307"
        "anthropic/claude-3-haiku-20240307" == 1)%Q.
Proof.
  apply (provider_prefix_scores_one "anthropic" "claude-3-haiku-20240307");
    reflexivity.
Defined.

(** X4. Whatever [find_best_model_match] returns is one of the candidates,
    scores at least 0.70 against the cleaned request, and no candidate
    scores more. *)
Theorem find_best_model_match_sound (requested_model : string)
    (available_models : list string) (m : string) :
  find_best_model_match requested_model available_models = Some m ->
  let score := calculate_model_similarity (clean_requested requested_model) in
  In m available_models
  /\ (7 # 10 <= score m)%Q
  /\ (forall c, In c available_models -> (score c <= score m)%Q).
Proof.
  unfold find_best_model_match.
  destruct (negb (truthy requested_model) || negb (list_truthy available_models));
    [discriminate|].
  destruct (str_in (clean_requested requested_model) available_models) eqn:Ein.
  - intros [= <-]. cbv zeta.
    rewrite (similarity_of_case_variants _ _ eq_refl).
    split; [by apply str_in_In|]. split; [lra|].
    intros c _. apply calculate_model_similarity_le_1.
  - intros Hloop. cbv zeta.
    pose proof (fuzzy_loop_ok (clean_requested requested_model) available_models)
      as Hok.
    unfold loop_state_ok in Hok. rewrite Hloop in Hok.
    destruct Hok as (_ & Hge & before & after & Hsplit & Hb & Ha).
    split; [rewrite Hsplit; apply in_or_app; right; by left|].
    split; [exact Hge|].
    intros c Hc. rewrite Hsplit in Hc. apply in_app_or in Hc as [Hc|[<-|Hc]].
    + specialize (Hb c Hc). lra.
    + lra.
    + exact (Ha c Hc).
Qed.

Lemma find_best_model_match_sound_witness :
  let score := calculate_model_similarity (clean_requested "llama3.1") in
  In "llama3.1:8b" ["gpt-4o-mini"; "llama3.1:8b"]
  /\ (7 # 10 <= score "llama3.1:8b")%Q
  /\ (forall c, In c ["gpt-4o-mini"; "llama3.1:8b"] ->
      (score c <= score "llama3.1:8b")%Q).
Proof.
  apply (find_best_model_match_sound "llama3.1" ["gpt-4o-mini"; "llama3.1:8b"]).
  vm_compute. reflexivity.
Defined.

(** X5. [find_best_model_match] gives up exactly when the request is
    empty, or when no candidate is the cleaned request and every candidate
    scores below 0.70 against it (which covers the empty candidate
    list). *)
Theorem find_best_model_match_none_iff (requested_model : string)
    (available_models : list string) :
  find_best_model_match requested_model available_models = None
  <-> requested_model = ""
      \/ (forall c, In c available_models ->
            c <> clean_requested requested_model
            /\ (calculate_model_similarity (clean_requested requested_model) c
                < 7 # 10)%Q).
Proof.
  unfold find_best_model_match. split.
  - destruct requested_model as [|ch rest] eqn:Er; [by left|]. rewrite <- Er.
    replace (truthy requested_model) with true by (by rewrite Er).
    destruct available_models as [|a l] eqn:El; [by right|]. rewrite <- El.
    replace (list_truthy available_models) with true by (by rewrite El).
    simpl negb. simpl orb.
    destruct (str_in (clean_requested requested_model) available_models) eqn:Ein;
      [discriminate|].
    intros Hnone. right. intros c Hc. split.
    + intros ->. apply str_in_In in Hc. congruence.
    + pose proof (fuzzy_loop_ok (clean_requested requested_model)
                    available_models) as Hok.
      unfold loop_state_ok in Hok. rewrite Hnone in Hok.
      destruct Hok as [_ Hlow]. by apply Hlow.
  - intros [->|Hall]; [reflexivity|].
    destruct (negb (truthy requested_model) || negb (list_truthy available_models));
      [reflexivity|].
    destruct (str_in (clean_requested requested_model) available_models) eqn:Ein.
    + apply str_in_In in Ein. by destruct (Hall _ Ein).
    + pose proof (fuzzy_loop_ok (clean_requested requested_model)
                    available_models) as Hok.
      unfold loop_state_ok in Hok.
      destruct (fst (fuzzy_loop (clean_requested requested_model)
                       available_models)) as [best|]; [|reflexivity].
      destruct Hok as (_ & Hge & before & after & Hsplit & _).
      assert (Hin : In best available_models).
      { rewrite Hsplit. apply in_or_app. right. by left. }
      destruct (Hall _ Hin) as [_ Hlt]. lra.
Qed.

Lemma find_best_model_match_none_iff_witness :
  find_best_model_match "fake-model-12345" ["gpt-4o-mini"; "llama3.1:8b"] = None.
Proof.
  apply (proj2 (find_best_model_match_none_iff "fake-model-12345"
                  ["gpt-4o-mini"; "llama3.1:8b"])).
  right. intros c [<-|[<-|[]]]; (split; [discriminate | vm_compute; reflexivity]).
Defined.

(** ** What the prefix cleaning removes *)

Lemma split_no_sep (sep : ascii) (k : nat) (s : string) :
  has_char sep s = false -> split sep k s = [s].
Proof.
  induction s as [|c s IH]; simpl; [reflexivity|].
  intros H. apply orb_false_iff in H as [Hc Hs].
  rewrite Ascii.eqb_sym in Hc. rewrite Hc, (IH Hs). reflexivity.
Qed.

Lemma split_cut (sep : ascii) (k : nat) (s : string) :
  has_char sep s = true ->
  exists a rest,
    s = a +:+ String sep rest /\ has_char sep a = false
    /\ split sep (S k) s = a :: split sep k rest.
Proof.
  induction s as [|c s IH]; simpl; [discriminate|].
  destruct (Ascii.eqb sep c) eqn:E.
  - intros _. apply Ascii.eqb_eq in E. subst c.
    exists "", s. rewrite Ascii.eqb_refl. by repeat split.
  - simpl. intros Hs. destruct (IH Hs) as (a & rest & -> & Ha & Hsplit).
    exists (String c a), rest. split; [reflexivity|]. split.
    + simpl. by rewrite E, Ha.
    + rewrite Ascii.eqb_sym in E. rewrite E. by rewrite Hsplit.
Qed.

Lemma startswith_app (s p : string) :
  startswith s p = true -> exists t, s = p +:+ t.
Proof.
  revert s. induction p as [|a p IH]; intros s; simpl.
  - intros _. by exists s.
  - destruct s as [|b s]; [discriminate|].
    intros H. apply andb_true_iff in H as [Hab Hs].
    apply Ascii.eqb_eq in Hab. subst b.
    destruct (IH s Hs) as [t ->]. by exists t.
Qed.

(** X6. The cleaning step of [find_best_model_match] either leaves the
    request as it is or removes exactly a prefix [remote_<token>_] whose
    token contains no underscore; a request that does not start with
    [remote_] is never changed. *)
Theorem clean_requested_cases (requested_model : string) :
  (startswith requested_model "remote_" = false ->
   clean_requested requested_model = requested_model)
  /\ (clean_requested requested_model = requested_model
      \/ exists token rest,
           has_char "_"%char token = false
           /\ requested_model = "remote_" +:+ token +:+ String "_"%char rest
           /\ clean_requested requested_model = rest).
Proof.
  unfold clean_requested.
  destruct (startswith requested_model "remote_") eqn:Estart;
    [|split; [reflexivity | by left]].
  split; [discriminate|].
  destruct (startswith_app _ _ Estart) as [t ->].
  change ("remote_" +:+ t) with ("remote" +:+ String "_"%char t).
  rewrite (split_first_piece "_"%char 1 "remote" t) by reflexivity.
  destruct (has_char "_"%char t) eqn:Et.
  - destruct (split_cut "_"%char 0 t Et) as (token & rest & -> & Htok & Hsplit).
    rewrite Hsplit, split_no_cut. right. by exists token, rest.
  - rewrite (split_no_sep _ _ _ Et). by left.
Qed.

Lemma clean_requested_cases_witness :
  clean_requested "mistral-nemo:12b" = "mistral-nemo:12b".
Proof.
  apply (proj1 (clean_requested_cases "mistral-nemo:12b")). reflexivity.
Defined.

(** * Further properties of the selector *)

Lemma find_config_Some (AVAILABLE_MODELS : list ModelConfig) (name : string)
    (config : ModelConfig) :
  find_config AVAILABLE_MODELS name = Some config ->
  In config AVAILABLE_MODELS /\ model config = name.
Proof.
  unfold find_config. intros H. apply find_some in H as [Hin Heq].
  by apply String.eqb_eq in Heq.
Qed.

Lemma find_config_None (AVAILABLE_MODELS : list ModelConfig) (name : string) :
  (forall m, In m AVAILABLE_MODELS -> model m <> name) ->
  find_config AVAILABLE_MODELS name = None.
Proof.
  intros H. unfold find_config.
  destruct (List.find _ AVAILABLE_MODELS) as [c|] eqn:E; [|reflexivity].
  apply find_some in E as [Hin Heq]. apply String.eqb_eq in Heq.
  by destruct (H c Hin).
Qed.

Lemma suitable_models_subset (AVAILABLE_MODELS : list ModelConfig)
    (task_type : option string) (m : ModelConfig) :
  In m (suitable_models AVAILABLE_MODELS task_type) -> In m AVAILABLE_MODELS.
Proof.
  unfold suitable_models.
  destruct (list_truthy (List.filter (suits task_type) AVAILABLE_MODELS));
    [|done].
  intros H. by apply filter_In in H as [H _].
Qed.

Lemma apply_strategy_In (strategy : option string) (pool : list ModelConfig)
    (m : ModelConfig) :
  apply_strategy strategy pool = Some m -> In m pool.
Proof.
  unfold apply_strategy.
  destruct (strategy_is strategy "cost"); [apply py_min_In|].
  destruct (strategy_is strategy "performance"); [apply py_min_In|].
  destruct (strategy_is strategy "local"); [|apply py_min_In].
  destruct (List.filter _ pool) as [|x l] eqn:E.
  - destruct pool; [discriminate|]. intros [= <-]. by left.
  - intros [= <-].
    assert (H : In x (List.filter
                        (fun m => String.eqb (provider m) "ollama") pool))
      by (rewrite E; by left).
    by apply filter_In in H as [H _].
Qed.

Lemma apply_strategy_total (strategy : option string) (pool : list ModelConfig) :
  pool <> [] -> exists m, apply_strategy strategy pool = Some m.
Proof.
  destruct pool as [|x rest]; [done|]. intros _. unfold apply_strategy.
  destruct (strategy_is strategy "cost"); [by eexists|].
  destruct (strategy_is strategy "performance"); [by eexists|].
  destruct (strategy_is strategy "local"); [|by eexists].
  destruct (List.filter _ (x :: rest)); by eexists.
Qed.

(** For registries of descriptors that carry a priority, a cost and a
    task-type list (which is what [ModelConfig] describes): on the empty
    registry both selectors fail, on a non-empty one they return an entry
    of the registry. *)
Lemma select_optimal_model_total (AVAILABLE_MODELS : list ModelConfig)
    (task_type strategy requested_model : option string) :
  (AVAILABLE_MODELS = [] ->
   Service.select_optimal_model AVAILABLE_MODELS task_type strategy
     requested_model = None
   /\ LibService.select_from AVAILABLE_MODELS task_type strategy
        requested_model = None)
  /\ (AVAILABLE_MODELS <> [] ->
      (exists m,
         Service.select_optimal_model AVAILABLE_MODELS task_type strategy
           requested_model = Some m /\ In m AVAILABLE_MODELS)
      /\ (exists m,
            LibService.select_from AVAILABLE_MODELS task_type strategy
              requested_model = Some m /\ In m AVAILABLE_MODELS)).
Proof.
  split.
  - intros ->. unfold Service.select_optimal_model, LibService.select_from.
    destruct (requested requested_model) as [r|]; simpl.
    + unfold find_best_model_match. simpl. rewrite orb_true_r.
      unfold apply_strategy.
      by destruct (strategy_is strategy "cost"),
        (strategy_is strategy "performance"), (strategy_is strategy "local").
    + unfold apply_strategy.
      by destruct (strategy_is strategy "cost"),
        (strategy_is strategy "performance"), (strategy_is strategy "local").
  - intros Hne.
    destruct (apply_strategy_total strategy
                (suitable_models AVAILABLE_MODELS task_type)) as [auto Hauto].
    { by apply suitable_models_nonempty. }
    assert (Hin : In auto AVAILABLE_MODELS).
    { eapply suitable_models_subset. eapply apply_strategy_In. exact Hauto. }
    unfold Service.select_optimal_model, LibService.select_from.
    rewrite Hauto.
    destruct (requested requested_model) as [r|];
      [|split; by exists auto].
    destruct (find_config AVAILABLE_MODELS r) as [c|] eqn:Ec.
    { apply find_config_Some in Ec as [Hc _]. split; by exists c. }
    split; [by exists auto|].
    destruct (find_best_model_match r (List.map model AVAILABLE_MODELS))
      as [f|]; [|by exists auto].
    destruct (truthy f); [|by exists auto].
    destruct (find_config AVAILABLE_MODELS f) as [c|] eqn:Ef; [|by exists auto].
    apply find_config_Some in Ef as [Hc _]. by exists c.
Qed.

(** X7. On the empty registry both selectors fail (the [ValueError] or
    [IndexError] of the strategy step), whatever is requested; and a
    descriptor returned by either selector is always an entry of the
    registry it was given. *)
Theorem select_optimal_model_in_registry (AVAILABLE_MODELS : list ModelConfig)
    (task_type strategy requested_model : option string) :
  (AVAILABLE_MODELS = [] ->
   Service.select_optimal_model AVAILABLE_MODELS task_type strategy
     requested_model = None
   /\ LibService.select_from AVAILABLE_MODELS task_type strategy
        requested_model = None)
  /\ (forall m,
        Service.select_optimal_model AVAILABLE_MODELS task_type strategy
          requested_model = Some m
        \/ LibService.select_from AVAILABLE_MODELS task_type strategy
             requested_model = Some m ->
        In m AVAILABLE_MODELS).
Proof.
  split;
    [exact (proj1 (select_optimal_model_total AVAILABLE_MODELS task_type
                     strategy requested_model))|].
  intros m Hsel.
  destruct AVAILABLE_MODELS as [|a l] eqn:El.
  { destruct (proj1 (select_optimal_model_total [] task_type strategy
                       requested_model) eq_refl) as [H1 H2].
    rewrite H1, H2 in Hsel. by destruct Hsel. }
  rewrite <- El in *.
  assert (Hne : AVAILABLE_MODELS <> []) by (rewrite El; discriminate).
  destruct (proj2 (select_optimal_model_total AVAILABLE_MODELS task_type
                     strategy requested_model) Hne)
    as [(m1 & H1 & Hin1) (m2 & H2 & Hin2)].
  rewrite H1, H2 in Hsel. by destruct Hsel as [[= <-]|[= <-]].
Qed.

Lemma select_optimal_model_in_registry_witness :
  In (nth 1 three_costs unnamed_model) three_costs.
Proof.
  apply (proj2 (select_optimal_model_in_registry three_costs (Some "summary")
                  (Some "local") (Some "no-such-model"))).
  left. vm_compute. reflexivity.
Defined.

Lemma fold_min_first_lowest_priority (rest seen : list ModelConfig)
    (best : ModelConfig) :
  first_lowest_priority seen best ->
  first_lowest_priority (seen ++ rest)
    (fold_left (fun best y => if priority y <? priority best then y else best)
       rest best).
Proof.
  revert seen best. induction rest as [|y rest IH]; intros seen best Hmin; simpl.
  - by rewrite app_nil_r.
  - replace (seen ++ y :: rest) with ((seen ++ [y]) ++ rest)
      by (by rewrite <- app_assoc).
    apply IH. destruct Hmin as (before & after & Hseen & Hb & Ha).
    destruct (priority y <? priority best) eqn:E.
    + apply Z.ltb_lt in E. exists seen, []. split; [reflexivity|].
      split; [|intros x []].
      intros x Hx. subst seen. apply in_app_or in Hx as [Hx|[<-|Hx]].
      * specialize (Hb x Hx). lia.
      * exact E.
      * specialize (Ha x Hx). lia.
    + apply Z.ltb_ge in E. exists before, (after ++ [y]). split.
      { subst seen. by rewrite <- app_assoc. }
      split; [exact Hb|].
      intros x Hx. apply in_app_or in Hx as [Hx|[<-|[]]]; auto.
Qed.

Lemma py_min_first_lowest_priority (pool : list ModelConfig) :
  pool <> [] ->
  exists best,
    py_min Z.ltb priority pool = Some best /\ first_lowest_priority pool best.
Proof.
  destruct pool as [|x rest]; [done|]. intros _. simpl.
  eexists. split; [reflexivity|].
  apply (fold_min_first_lowest_priority rest [x] x).
  exists [], []. split; [reflexivity|]. split; intros y [].
Qed.

Lemma strategy_is_false (strategy : option string) (name : string) :
  strategy <> Some name -> strategy_is strategy name = false.
Proof.
  destruct strategy as [s|]; [|reflexivity]. simpl. intros H.
  apply String.eqb_neq. congruence.
Qed.

(** X8. Without a requested model, every strategy other than [cost] and
    [local] - [balanced], [performance], an unknown word, or none at all -
    selects the first descriptor of the candidate pool that has the lowest
    priority number. *)
Theorem priority_strategies_select_first_lowest
    (AVAILABLE_MODELS : list ModelConfig) (task_type strategy : option string) :
  AVAILABLE_MODELS <> [] ->
  strategy <> Some "cost" -> strategy <> Some "local" ->
  exists chosen,
    Service.select_optimal_model AVAILABLE_MODELS task_type strategy None
      = Some chosen
    /\ LibService.select_from AVAILABLE_MODELS task_type strategy None
      = Some chosen
    /\ first_lowest_priority (suitable_models AVAILABLE_MODELS task_type) chosen.
Proof.
  intros Hne Hcost Hlocal.
  destruct (py_min_first_lowest_priority
              (suitable_models AVAILABLE_MODELS task_type))
    as (chosen & Hmin & Hfirst).
  { by apply suitable_models_nonempty. }
  exists chosen.
  unfold Service.select_optimal_model, LibService.select_from, requested,
    apply_strategy.
  rewrite (strategy_is_false _ _ Hcost), (strategy_is_false _ _ Hlocal).
  destruct (strategy_is strategy "performance"); rewrite Hmin; auto.
Qed.

Lemma priority_strategies_select_first_lowest_witness :
  exists chosen,
    Service.select_optimal_model three_costs (Some "general")
      (Some "fastest") None = Some chosen
    /\ LibService.select_from three_costs (Some "general") (Some "fastest") None
      = Some chosen
    /\ first_lowest_priority (suitable_models three_costs (Some "general"))
         chosen.
Proof.
  apply (priority_strategies_select_first_lowest three_costs (Some "general")
           (Some "fastest")); discriminate.
Defined.

Lemma filter_first {A : Type} (p : A -> bool) (l : list A) :
  match List.filter p l with
  | x :: _ =>
      exists before after,
        l = before ++ x :: after /\ p x = true
        /\ (forall y, In y before -> p y = false)
  | [] => forall y, In y l -> p y = false
  end.
Proof.
  induction l as [|a l IH]; simpl; [intros y []|].
  destruct (p a) eqn:E.
  - exists [], l. split; [reflexivity|]. split; [exact E | intros y []].
  - destruct (List.filter p l) as [|x rest].
    + intros y [<-|Hy]; auto.
    + destruct IH as (before & after & -> & Hx & Hb).
      exists (a :: before), after. split; [reflexivity|]. split; [exact Hx|].
      intros y [<-|Hy]; auto.
Qed.

(** X9. Under the strategy [local] and without a requested model, the
    selectors return the first Ollama descriptor of the candidate pool;
    when the pool holds none, they return the first descriptor of the
    pool, whatever its priority. *)
Theorem local_strategy_selects_first_ollama
    (AVAILABLE_MODELS : list ModelConfig) (task_type : option string) :
  AVAILABLE_MODELS <> [] ->
  let pool := suitable_models AVAILABLE_MODELS task_type in
  exists chosen,
    Service.select_optimal_model AVAILABLE_MODELS task_type (Some "local") None
      = Some chosen
    /\ LibService.select_from AVAILABLE_MODELS task_type (Some "local") None
      = Some chosen
    /\ (first_local pool chosen
        \/ ((forall m, In m pool -> provider m <> "ollama")
            /\ head pool = Some chosen)).
Proof.
  intros Hne pool.
  pose proof (suitable_models_nonempty _ task_type Hne) as Hpool.
  fold pool in Hpool.
  unfold Service.select_optimal_model, LibService.select_from, requested,
    apply_strategy. simpl. fold pool.
  pose proof (filter_first (fun m => String.eqb (provider m) "ollama") pool)
    as Hf.
  destruct (List.filter _ pool) as [|x rest].
  - destruct pool as [|y l]; [done|]. exists y.
    split; [reflexivity|]. split; [reflexivity|]. right.
    split; [|reflexivity].
    intros m Hm. apply String.eqb_neq. by apply Hf.
  - destruct Hf as (before & after & Hsplit & Hx & Hb). exists x.
    split; [reflexivity|]. split; [reflexivity|]. left.
    exists before, after. split; [exact Hsplit|].
    split; [by apply String.eqb_eq|].
    intros y Hy. apply String.eqb_neq. by apply Hb.
Qed.

Lemma local_strategy_selects_first_ollama_witness :
  let pool := suitable_models three_costs (Some "search") in
  exists chosen,
    Service.select_optimal_model three_costs (Some "search") (Some "local") None
      = Some chosen
    /\ LibService.select_from three_costs (Some "search") (Some "local") None
      = Some chosen
    /\ (first_local pool chosen
        \/ ((forall m, In m pool -> provider m <> "ollama")
            /\ head pool = Some chosen)).
Proof.
  apply (local_strategy_selects_first_ollama three_costs (Some "search")).
  discriminate.
Defined.

(** X10. Without a requested model, whenever some registry entry lists
    the request's task type, the descriptor selected lists it too, under
    every strategy. *)
Theorem auto_selection_respects_task_type
    (AVAILABLE_MODELS : list ModelConfig) (task_type strategy : option string)
    (chosen : ModelConfig) :
  (exists m, In m AVAILABLE_MODELS /\ suits task_type m = true) ->
  Service.select_optimal_model AVAILABLE_MODELS task_type strategy None
    = Some chosen
  \/ LibService.select_from AVAILABLE_MODELS task_type strategy None
     = Some chosen ->
  suits task_type chosen = true.
Proof.
  intros (m & Hm & Hsuits) Hsel.
  assert (Hauto : apply_strategy strategy
                    (suitable_models AVAILABLE_MODELS task_type) = Some chosen)
    by (by destruct Hsel).
  apply apply_strategy_In in Hauto. unfold suitable_models in Hauto.
  assert (Hin : In m (List.filter (suits task_type) AVAILABLE_MODELS))
    by (apply filter_In; by split).
  destruct (List.filter (suits task_type) AVAILABLE_MODELS) as [|x l] eqn:E;
    [destruct Hin|].
  cbn [list_truthy] in Hauto. rewrite <- E in Hauto.
  by apply filter_In in Hauto as [_ H].
Qed.

Lemma auto_selection_respects_task_type_witness :
  suits (Some "summary") (nth 4 LibService.MODEL_CONFIGS unnamed_model) = true.
Proof.
  apply (auto_selection_respects_task_type
           (tail LibService.MODEL_CONFIGS) (Some "summary") (Some "cost")).
  - exists (nth 1 LibService.MODEL_CONFIGS unnamed_model).
    split; [left|]; reflexivity.
  - left. vm_compute. reflexivity.
Defined.

(** X11. A requested id that matches nothing is not an error: when no
    registry id equals it, the old variant selects as if no model had been
    requested; the new variant does the same when, in addition, no
    registry id equals the cleaned request and every registry id scores
    below 0.70 against it. *)
Theorem unknown_model_falls_back_to_auto_selection
    (AVAILABLE_MODELS : list ModelConfig) (task_type strategy : option string)
    (requested_model : string) :
  (forall m, In m AVAILABLE_MODELS -> model m <> requested_model) ->
  Service.select_optimal_model AVAILABLE_MODELS task_type strategy
    (Some requested_model)
  = Service.select_optimal_model AVAILABLE_MODELS task_type strategy None
  /\ ((forall m, In m AVAILABLE_MODELS ->
         model m <> clean_requested requested_model
         /\ (calculate_model_similarity (clean_requested requested_model)
               (model m) < 7 # 10)%Q) ->
      LibService.select_from AVAILABLE_MODELS task_type strategy
        (Some requested_model)
      = LibService.select_from AVAILABLE_MODELS task_type strategy None).
Proof.
  intros Hexact.
  pose proof (find_config_None _ _ Hexact) as Hnone.
  unfold Service.select_optimal_model, LibService.select_from, requested.
  destruct (truthy requested_model); [|split; reflexivity].
  rewrite Hnone. split; [reflexivity|].
  intros Hfuzzy.
  replace (find_best_model_match requested_model
             (List.map model AVAILABLE_MODELS)) with (@None string);
    [reflexivity|].
  symmetry. apply find_best_model_match_none_iff. right.
  intros c Hc. apply in_map_iff in Hc as (m & <- & Hm). by apply Hfuzzy.
Qed.

Lemma unknown_model_falls_back_to_auto_selection_witness :
  Service.select_optimal_model three_costs (Some "general") (Some "cost")
    (Some "fake-model-12345")
  = Service.select_optimal_model three_costs (Some "general") (Some "cost") None
  /\ LibService.select_from three_costs (Some "general") (Some "cost")
       (Some "fake-model-12345")
     = LibService.select_from three_costs (Some "general") (Some "cost") None.
Proof.
  destruct (unknown_model_falls_back_to_auto_selection three_costs
              (Some "general") (Some "cost") "fake-model-12345") as [H1 H2].
  - intros m [<-|[<-|[<-|[]]]]; discriminate.
  - split; [exact H1|]. apply H2.
    intros m [<-|[<-|[<-|[]]]];
      (split; [discriminate | vm_compute; reflexivity]).
Defined.

(** X12. A request of the shape [remote_<token>_<id>], with a token free
    of underscores and a non-empty [<id>], is resolved by the new selector
    to the first registry entry whose id is [<id>], provided no entry
    carries the whole request as its id. *)
Theorem select_resolves_remote_id (AVAILABLE_MODELS : list ModelConfig)
    (task_type strategy : option string) (token rest : string)
    (config : ModelConfig) :
  has_char "_"%char token = false -> rest <> "" ->
  In config AVAILABLE_MODELS -> model config = rest ->
  (forall m, In m AVAILABLE_MODELS ->
     model m <> "remote_" +:+ token +:+ String "_"%char rest) ->
  exists chosen,
    LibService.select_from AVAILABLE_MODELS task_type strategy
      (Some ("remote_" +:+ token +:+ String "_"%char rest)) = Some chosen
    /\ first_with_id AVAILABLE_MODELS rest chosen.
Proof.
  intros Htoken Hrest Hin Hname Hexact.
  destruct (find_config_first _ _ _ Hin Hname) as (chosen & Hfind & Hfirst).
  exists chosen. split; [|exact Hfirst].
  unfold LibService.select_from.
  change (requested (Some ("remote_" +:+ token +:+ String "_"%char rest)))
    with (Some ("remote_" +:+ token +:+ String "_"%char rest)).
  cbv beta iota zeta.
  rewrite (find_config_None _ _ Hexact).
  unfold find_best_model_match.
  rewrite (clean_requested_any_token token rest Htoken).
  replace (truthy ("remote_" +:+ token +:+ String "_"%char rest)) with true
    by reflexivity.
  assert (Hnames : In rest (List.map model AVAILABLE_MODELS)).
  { rewrite <- Hname. by apply in_map. }
  destruct (List.map model AVAILABLE_MODELS) as [|n names] eqn:En;
    [destruct Hnames|].
  rewrite <- En in *. replace (list_truthy (List.map model AVAILABLE_MODELS))
    with true by (by rewrite En).
  simpl negb. simpl orb. cbv iota.
  apply str_in_In in Hnames. rewrite Hnames.
  apply truthy_true in Hrest. rewrite Hrest. by rewrite Hfind.
Qed.

Lemma select_resolves_remote_id_witness :
  exists chosen,
    LibService.select_from LibService.MODEL_CONFIGS (Some "general")
      (Some "balanced")
      (Some ("remote_" +:+ "edl9t5a53mdsu3ttw" +:+ String "_"%char "llama3.1:8b"))
    = Some chosen
    /\ first_with_id LibService.MODEL_CONFIGS "llama3.1:8b" chosen.
Proof.
  apply (select_resolves_remote_id LibService.MODEL_CONFIGS (Some "general")
           (Some "balanced") "edl9t5a53mdsu3ttw" "llama3.1:8b"
           (nth 4 LibService.MODEL_CONFIGS unnamed_model)).
  - reflexivity.
  - discriminate.
  - do 4 right. left. reflexivity.
  - reflexivity.
  - intros m [<-|[<-|[<-|[<-|[<-|[]]]]]]; discriminate.
Defined.

(** * Further properties of the fallback engine *)

Lemma attempt_loop_shape (call_litellm : ChatRequest -> ModelConfig -> Kwargs)
    (acompletion : Kwargs -> call_result) (AVAILABLE_MODELS : list ModelConfig)
    (request : ChatRequest) (max_retries n a : nat)
    (selected_model : ModelConfig) :
  (a + S n = S max_retries)%nat ->
  exists earlier last,
    fst (attempt_loop call_litellm acompletion AVAILABLE_MODELS request
           max_retries (seq a (S n)) selected_model) = earlier ++ [last]
    /\ (length earlier <= n)%nat
    /\ (forall x, In x earlier -> call_fails call_litellm acompletion request x)
    /\ ((exists result,
           snd (attempt_loop call_litellm acompletion AVAILABLE_MODELS request
                  max_retries (seq a (S n)) selected_model)
           = Returned result last
           /\ acompletion (call_litellm request last) = Completed result)
        \/ (exists e,
              snd (attempt_loop call_litellm acompletion AVAILABLE_MODELS
                     request max_retries (seq a (S n)) selected_model)
              = Raised 500 ("All LLM providers failed. Last error: " +:+ e)
              /\ acompletion (call_litellm request last) = Failed e)).
Proof.
  revert a selected_model. induction n as [|n IH]; intros a selected_model Ha.
  - simpl. destruct (acompletion (call_litellm request selected_model))
      as [result|e] eqn:Ecall.
    + exists [], selected_model. simpl. split; [reflexivity|]. split; [lia|].
      split; [intros x []|]. left. by exists result.
    + replace (a <? max_retries)%nat with false
        by (symmetry; apply Nat.ltb_ge; lia).
      exists [], selected_model. simpl. split; [reflexivity|]. split; [lia|].
      split; [intros x []|]. right. by exists e.
  - change (seq a (S (S n))) with (a :: seq (S a) (S n)).
    cbn [attempt_loop].
    destruct (acompletion (call_litellm request selected_model))
      as [result|e] eqn:Ecall.
    + exists [], selected_model. simpl. split; [reflexivity|]. split; [lia|].
      split; [intros x []|]. left. by exists result.
    + replace (a <? max_retries)%nat with true
        by (symmetry; apply Nat.ltb_lt; lia).
      destruct (py_min Z.ltb priority _) as [next|].
      * destruct (IH (S a) next) as (earlier & last & Htried & Hlen & Hfail & Hout);
          [lia|].
        destruct (attempt_loop call_litellm acompletion AVAILABLE_MODELS request
                    max_retries (seq (S a) (S n)) next) as [tried out].
        simpl in *. exists (selected_model :: earlier), last.
        split; [by rewrite Htried|]. split; [simpl; lia|].
        split; [|exact Hout].
        intros x [<-|Hx]; [by exists e | by apply Hfail].
      * exists [], selected_model. simpl. split; [reflexivity|]. split; [lia|].
        split; [intros x []|]. right. by exists e.
Qed.

(** X13. No fallback run makes more than [max_retries + 1] attempts.
    Whenever a run of either variant ends by returning or by raising its
    HTTP error, it has made at least one attempt, every attempt but the
    last failed, and the run either returns the completion of the last
    descriptor attempted, together with that descriptor, or raises the
    500 error with the error message of the last attempt. *)
Theorem try_with_fallback_run_shape (acompletion : Kwargs -> call_result)
    (AVAILABLE_MODELS : list ModelConfig) (st : LibService.Registry)
    (request : ChatRequest) (max_retries : nat) :
  let run :=
    Service.try_with_fallback acompletion AVAILABLE_MODELS request max_retries in
  let lib_run :=
    snd (LibService.try_with_fallback acompletion st request max_retries) in
  (length (fst run) <= max_retries + 1)%nat
  /\ (length (fst lib_run) <= max_retries + 1)%nat
  /\ ((exists result m, snd run = Returned result m)
      \/ (exists status detail, snd run = Raised status detail) ->
      fallback_run_ok Service.call_litellm acompletion request max_retries run)
  /\ ((exists result m, snd lib_run = Returned result m)
      \/ (exists status detail, snd lib_run = Raised status detail) ->
      fallback_run_ok LibService.call_litellm acompletion request max_retries
        lib_run).
Proof.
  cbv zeta.
  assert (Hlen : forall call registry selected,
            (length (fst (attempt_loop call acompletion registry request
                            max_retries (seq 0 (max_retries + 1)) selected))
             <= max_retries + 1)%nat).
  { intros call registry selected.
    replace (max_retries + 1)%nat with (S max_retries) by lia.
    destruct (attempt_loop_shape call acompletion registry request max_retries
                max_retries 0 selected) as (earlier & last & -> & Hl & _);
      [lia|].
    rewrite length_app. simpl. lia. }
  unfold Service.try_with_fallback, LibService.try_with_fallback,
    LibService.select_optimal_model.
  destruct (Service.select_optimal_model _ _ _ _) as [selected|];
    destruct (LibService.select_from _ _ _ _) as [lib_selected|]; cbn [fst snd];
    repeat split;
    try apply Hlen; try (simpl; lia);
    try (intros [(result & m & H)|(status & detail & H)]; discriminate);
    intros _; replace (max_retries + 1)%nat with (S max_retries) by lia;
    apply attempt_loop_shape; lia.
Qed.

Lemma try_with_fallback_run_shape_witness :
  fallback_run_ok Service.call_litellm only_ollama general_request 2
    (Service.try_with_fallback only_ollama
       (LibService.AVAILABLE_MODELS static_registry) general_request 2)
  /\ fallback_run_ok LibService.call_litellm only_ollama general_request 2
       (snd (LibService.try_with_fallback only_ollama static_registry
               general_request 2)).
Proof.
  destruct (try_with_fallback_run_shape only_ollama
              (LibService.AVAILABLE_MODELS static_registry) static_registry
              general_request 2) as (_ & _ & H1 & H2).
  split; [apply H1 | apply H2];
    first [ left; eexists; eexists; vm_compute; reflexivity
          | right; eexists; eexists; vm_compute; reflexivity ].
Defined.

Lemma attempt_loop_retries_eligible
    (call_litellm : ChatRequest -> ModelConfig -> Kwargs)
    (acompletion : Kwargs -> call_result) (AVAILABLE_MODELS : list ModelConfig)
    (request : ChatRequest) (max_retries : nat) (attempts : list nat)
    (selected_model x : ModelConfig) :
  In x (tail (fst (attempt_loop call_litellm acompletion AVAILABLE_MODELS
                     request max_retries attempts selected_model))) ->
  In x AVAILABLE_MODELS /\ suits (request_task_type request) x = true.
Proof.
  revert selected_model. induction attempts as [|attempt rest IH];
    intros selected_model; [intros []|].
  cbn [attempt_loop].
  destruct (acompletion _); [intros []|].
  destruct (attempt <? max_retries)%nat; [|intros []].
  destruct (py_min _ _ _) as [next|] eqn:Emin; [|intros []].
  specialize (IH next).
  destruct rest as [|attempt' rest'].
  { simpl. intros []. }
  destruct (attempt_loop_head call_litellm acompletion AVAILABLE_MODELS request
              max_retries attempt' rest' next) as [tried' Htried].
  destruct (attempt_loop _ _ _ _ _ (attempt' :: rest') next) as [tried result].
  cbn [fst tail] in *. subst tried. cbn [tail] in IH.
  intros [<-|Hx]; [|by apply IH].
  apply py_min_In, filter_In in Emin as [Hin Hcond].
  apply andb_true_iff in Hcond as [_ Hsuits]. by split.
Qed.

(** X14. Every retry of a fallback run goes to a registry entry that
    lists the request's task type and whose id differs from the id of the
    descriptor that has just failed. *)
Theorem try_with_fallback_retry_targets (acompletion : Kwargs -> call_result)
    (AVAILABLE_MODELS : list ModelConfig) (st : LibService.Registry)
    (request : ChatRequest) (max_retries i : nat) (a b : ModelConfig) :
  let tried :=
    fst (Service.try_with_fallback acompletion AVAILABLE_MODELS request
           max_retries) in
  let lib_tried :=
    fst (snd (LibService.try_with_fallback acompletion st request
                max_retries)) in
  (tried !! i = Some a -> tried !! S i = Some b ->
   model a <> model b
   /\ In b AVAILABLE_MODELS
   /\ suits (request_task_type request) b = true)
  /\ (lib_tried !! i = Some a -> lib_tried !! S i = Some b ->
      model a <> model b
      /\ In b (LibService.AVAILABLE_MODELS
                 (LibService.refresh_models_from_redis st))
      /\ suits (request_task_type request) b = true).
Proof.
  cbv zeta. split.
  - unfold Service.try_with_fallback.
    destruct (Service.select_optimal_model _ _ _ _) as [selected|];
      [|by destruct i].
    intros Ha Hb. split.
    + exact (attempt_loop_adjacent_distinct _ _ _ _ _ _ _ i a b Ha Hb).
    + apply (attempt_loop_retries_eligible Service.call_litellm acompletion
               AVAILABLE_MODELS request max_retries
               (seq 0 (max_retries + 1)) selected).
      apply list_elem_of_In, list_elem_of_lookup. exists i.
      by rewrite lookup_tail.
  - unfold LibService.try_with_fallback, LibService.select_optimal_model.
    destruct (LibService.select_from _ _ _ _) as [selected|];
      [|by destruct i].
    cbn [snd]. intros Ha Hb. split.
    + exact (attempt_loop_adjacent_distinct _ _ _ _ _ _ _ i a b Ha Hb).
    + apply (attempt_loop_retries_eligible LibService.call_litellm acompletion
               (LibService.AVAILABLE_MODELS
                  (LibService.refresh_models_from_redis st))
               request max_retries (seq 0 (max_retries + 1)) selected).
      apply list_elem_of_In, list_elem_of_lookup. exists i.
      by rewrite lookup_tail.
Qed.

Lemma try_with_fallback_retry_targets_witness :
  ("gpt-4o-mini" <> "claude-3-haiku-20240307"
   /\ In (nth 1 LibService.MODEL_CONFIGS unnamed_model)
        (LibService.AVAILABLE_MODELS static_registry)
   /\ suits (request_task_type general_request)
        (nth 1 LibService.MODEL_CONFIGS unnamed_model) = true)
  /\ ("gpt-4o-mini" <> "claude-3-haiku-20240307"
      /\ In (nth 1 LibService.MODEL_CONFIGS unnamed_model)
           (LibService.AVAILABLE_MODELS
              (LibService.refresh_models_from_redis static_registry))
      /\ suits (request_task_type general_request)
           (nth 1 LibService.MODEL_CONFIGS unnamed_model) = true).
Proof.
  destruct (try_with_fallback_retry_targets always_fails
              (LibService.AVAILABLE_MODELS static_registry) static_registry
              general_request 2 0
              (nth 0 LibService.MODEL_CONFIGS unnamed_model)
              (nth 1 LibService.MODEL_CONFIGS unnamed_model)) as [H1 H2].
  split; [apply H1 | apply H2]; vm_compute; reflexivity.
Defined.

Lemma filter_none {A : Type} (p : A -> bool) (l : list A) :
  (forall x, p x = false) -> List.filter p l = [].
Proof.
  intros H. induction l as [|x l IH]; simpl; [reflexivity|]. by rewrite H.
Qed.

(** X15. A request without task type is never retried: no descriptor
    passes the task-type test of the reselection, so a failed first
    attempt ends the run, whatever [max_retries] is. *)
Theorem no_task_type_no_retry (acompletion : Kwargs -> call_result)
    (AVAILABLE_MODELS : list ModelConfig) (st : LibService.Registry)
    (request : ChatRequest) (max_retries : nat) :
  request_task_type request = None ->
  (length (fst (Service.try_with_fallback acompletion AVAILABLE_MODELS request
                  max_retries)) <= 1)%nat
  /\ (length (fst (snd (LibService.try_with_fallback acompletion st request
                          max_retries))) <= 1)%nat.
Proof.
  intros Htask.
  assert (Hloop : forall call attempts registry selected,
            (length (fst (attempt_loop call acompletion registry request
                            max_retries attempts selected)) <= 1)%nat).
  { intros call attempts registry selected.
    destruct attempts as [|attempt rest]; [simpl; lia|].
    cbn [attempt_loop]. destruct (acompletion _); [simpl; lia|].
    destruct (attempt <? max_retries)%nat; [|simpl; lia].
    rewrite filter_none; [simpl; lia|].
    intros x. rewrite Htask. simpl. apply andb_false_r. }
  split.
  - unfold Service.try_with_fallback.
    destruct (Service.select_optimal_model _ _ _ _); [apply Hloop | simpl; lia].
  - unfold LibService.try_with_fallback, LibService.select_optimal_model.
    destruct (LibService.select_from _ _ _ _); [apply Hloop | simpl; lia].
Qed.

Lemma no_task_type_no_retry_witness :
  (length (fst (Service.try_with_fallback always_fails
                  (Service.load_available two_keys) bare_request 2)) <= 1)%nat
  /\ (length (fst (snd (LibService.try_with_fallback always_fails
                          static_registry bare_request 2))) <= 1)%nat.
Proof.
  apply (no_task_type_no_retry always_fails (Service.load_available two_keys)
           static_registry bare_request 2).
  reflexivity.
Defined.

(** * Discovery of remote models *)

(** X16. A listed id is turned into a descriptor exactly when it contains
    a slash; the provider is what stands before the first slash and the
    model what stands after it, so the identifier that [call_litellm]
    later hands to the provider is the listed id again, also once the
    descriptor has been flagged dynamic. *)
Theorem discovered_litellm_model_round_trip (model_id : string)
    (request : ChatRequest) :
  (has_char "/"%char model_id = false ->
   LibService.discovered_litellm_model model_id = None)
  /\ (has_char "/"%char model_id = true ->
      exists config,
        LibService.discovered_litellm_model model_id = Some config
        /\ model_id = provider config +:+ String "/"%char (model config)
        /\ has_char "/"%char (provider config) = false
        /\ kw_model (LibService.call_litellm request config) = model_id
        /\ kw_model (LibService.call_litellm request
                       (LibService.mark_dynamic config)) = model_id).
Proof.
  unfold LibService.discovered_litellm_model. split; intros H; rewrite H.
  - by rewrite andb_false_r.
  - destruct (split_cut "/"%char 0 model_id H) as (a & rest & Hid & Ha & Hsplit).
    rewrite Hsplit, split_no_cut.
    replace (truthy model_id) with true
      by (rewrite Hid; by destruct a).
    eexists. split; [reflexivity|]. simpl. by rewrite Hid.
Qed.

Lemma discovered_litellm_model_round_trip_witness :
  exists config,
    LibService.discovered_litellm_model "groq/mixtral-8x7b-32768" = Some config
    /\ "groq/mixtral-8x7b-32768"
       = provider config +:+ String "/"%char (model config)
    /\ has_char "/"%char (provider config) = false
    /\ kw_model (LibService.call_litellm general_request config)
       = "groq/mixtral-8x7b-32768"
    /\ kw_model (LibService.call_litellm general_request
                   (LibService.mark_dynamic config))
       = "groq/mixtral-8x7b-32768".
Proof.
  apply (proj2 (discovered_litellm_model_round_trip "groq/mixtral-8x7b-32768"
                  general_request)).
  reflexivity.
Defined.

(** X17. An Ollama listing entry is skipped when its name is empty or
    begins with a colon; every other name becomes the id of an Ollama
    descriptor as it stands, tag included. *)
Theorem discovered_ollama_model_keeps_name (name : string) :
  match name with
  | EmptyString => LibService.discovered_ollama_model name = None
  | String c _ =>
      if Ascii.eqb c ":" then LibService.discovered_ollama_model name = None
      else option_map (fun m => (model m, provider m))
             (LibService.discovered_ollama_model name)
           = Some (name, "ollama")
  end.
Proof.
  destruct name as [|c s]; [reflexivity|].
  unfold LibService.discovered_ollama_model, split_all.
  cbn [String.length split].
  destruct (Ascii.eqb c ":"); [reflexivity|].
  destruct (split ":"%char (S (String.length s)) s); reflexivity.
Qed.

Lemma add_dynamic_model_is_register (config : ModelConfig)
    (st : LibService.Registry) :
  LibService.add_dynamic_model config st
  = LibService.register_discovered [config] st.
Proof. reflexivity. Qed.

Lemma register_fold_keyed (discovered : list ModelConfig)
    (store : gmap string ModelConfig) :
  store_keyed store ->
  store_keyed (fold_left
                 (fun s m => <[model m := LibService.mark_dynamic m]> s)
                 discovered store)
  /\ (forall m, In m discovered ->
      is_Some (fold_left
                 (fun s m => <[model m := LibService.mark_dynamic m]> s)
                 discovered store !! model m)).
Proof.
  revert store. induction discovered as [|d l IH]; intros store Hk; simpl.
  - split; [exact Hk | intros m []].
  - destruct (IH (<[model d := LibService.mark_dynamic d]> store)) as [Hk' Hin].
    { by apply store_keyed_insert. }
    split; [exact Hk'|]. intros m [<-|Hm]; [|by apply Hin].
    clear Hin IH Hk'.
    assert (Hmono : forall (l : list ModelConfig) (s : gmap string ModelConfig) k,
              is_Some (s !! k) ->
              is_Some (fold_left
                         (fun s m => <[model m := LibService.mark_dynamic m]> s)
                         l s !! k)).
    { induction l0 as [|e l0 IHl]; intros s k Hs; simpl; [exact Hs|].
      apply IHl. rewrite lookup_insert. case_decide; [by eexists | exact Hs]. }
    apply Hmono. rewrite lookup_insert_eq. by eexists.
Qed.

(** X18. After [discover_remote_server] has registered its findings (and
    after [add_dynamic_model], which registers a single one), every
    registered id with at least one character names a registry entry: the
    selector, asked for that id, returns an entry that carries it. *)
Theorem registered_models_are_selectable (discovered : list ModelConfig)
    (st : LibService.Registry) (store : gmap string ModelConfig)
    (task_type strategy : option string) (m : ModelConfig) :
  LibService.redis_client st = Some store -> store_keyed store ->
  In m discovered -> model m <> "" ->
  exists chosen,
    LibService.select_from
      (LibService.AVAILABLE_MODELS
         (LibService.register_discovered discovered st))
      task_type strategy (Some (model m)) = Some chosen
    /\ model chosen = model m.
Proof.
  intros Hredis Hk Hm Hname.
  destruct (register_fold_keyed discovered store Hk) as [Hk' Hsome].
  destruct (Hsome m Hm) as [d Hd].
  set (store' := fold_left
                   (fun s m => <[model m := LibService.mark_dynamic m]> s)
                   discovered store) in *.
  assert (Hin : In d (LibService.AVAILABLE_MODELS
                        (LibService.register_discovered discovered st))).
  { unfold LibService.register_discovered,
      LibService.refresh_models_from_redis. rewrite Hredis. simpl.
    apply in_or_app. right. apply in_map_iff. exists (model m, d).
    split; [reflexivity|]. by apply list_elem_of_In, elem_of_map_to_list. }
  destruct (Hk' _ _ Hd) as [Hmodel _].
  destruct (find_config_first _ _ _ Hin Hmodel) as (chosen & Hfind & Hfirst).
  exists chosen. unfold LibService.select_from, requested.
  apply truthy_true in Hname. rewrite Hname, Hfind.
  split; [reflexivity|]. by destruct Hfirst as (? & ? & _ & ? & _).
Qed.

Lemma registered_models_are_selectable_witness :
  exists chosen,
    LibService.select_from
      (LibService.AVAILABLE_MODELS
         (LibService.register_discovered [phi4; gpt_again] local_only))
      (Some "general") (Some "cost") (Some (model phi4)) = Some chosen
    /\ model chosen = model phi4.
Proof.
  apply (registered_models_are_selectable [phi4; gpt_again] local_only ∅).
  - reflexivity.
  - exact store_keyed_empty.
  - left. reflexivity.
  - discriminate.
Defined.

(** * Further properties of the registry *)

Lemma NoDup_map_filter {A B : Type} (f : A -> B) (p : A -> bool) (l : list A) :
  NoDup (List.map f l) -> NoDup (List.map f (List.filter p l)).
Proof.
  induction l as [|x l IH]; simpl; [done|].
  intros H. apply NoDup_cons in H as [Hx Hl].
  destruct (p x); simpl; [|by apply IH].
  apply NoDup_cons. split; [|by apply IH].
  intros Hin. apply Hx. apply list_elem_of_In in Hin. apply list_elem_of_In.
  apply in_map_iff in Hin as (y & Hy & Hin). apply filter_In in Hin as [Hin _].
  apply in_map_iff. by exists y.
Qed.

Lemma filter_static_all (l : list ModelConfig) :
  (forall m, In m l -> dynamic m = false) ->
  List.filter (fun m => negb (dynamic m)) l = l.
Proof.
  induction l as [|m l IH]; intros H; simpl; [reflexivity|].
  rewrite (H m) by (by left). simpl. rewrite IH; [reflexivity|].
  intros x Hx. apply H. by right.
Qed.

Lemma static_models_are_static (env : gset string) (m : ModelConfig) :
  In m (LibService.load_static_models env) -> dynamic m = false.
Proof.
  unfold LibService.load_static_models. intros H.
  apply filter_In in H as [H _].
  repeat (destruct H as [<-|H]; [reflexivity|]). destruct H.
Qed.

(** X19. Whatever credentials are set, the static registry of either
    variant contains [llama3.1:8b], which needs none, lists no id twice
    and holds static entries only; so the old variant, whose registry is
    the static one, always selects a descriptor. *)
Theorem static_registry_never_empty (env : gset string)
    (task_type strategy requested_model : option string) :
  In "llama3.1:8b" (List.map model (LibService.load_static_models env))
  /\ In "llama3.1:8b" (List.map model (Service.load_available env))
  /\ NoDup (List.map model (LibService.load_static_models env))
  /\ NoDup (List.map model (Service.load_available env))
  /\ (forall m, In m (LibService.load_static_models env) -> dynamic m = false)
  /\ (exists m,
        Service.select_optimal_model (Service.load_available env) task_type
          strategy requested_model = Some m
        /\ In m (Service.load_available env)).
Proof.
  assert (Hl : In "llama3.1:8b" (List.map model (Service.load_available env))).
  { apply in_map_iff. exists (nth 4 Service.MODEL_CONFIGS unnamed_model).
    split; [reflexivity|]. apply filter_In. split; [|reflexivity].
    do 4 right. left. reflexivity. }
  split.
  { apply in_map_iff. exists (nth 4 LibService.MODEL_CONFIGS unnamed_model).
    split; [reflexivity|]. apply filter_In. split; [|reflexivity].
    do 4 right. left. reflexivity. }
  split; [exact Hl|].
  assert (Hnodup : NoDup ["gpt-4o-mini"; "claude-3-haiku-20240307";
                          "gemini-pro"; "mixtral-8x7b-32768"; "llama3.1:8b"]).
  { repeat (apply NoDup_cons; split;
            [intros Hin; apply list_elem_of_In in Hin; simpl in Hin;
             repeat (destruct Hin as [Hin|Hin]; [discriminate|]); destruct Hin|]).
    apply NoDup_nil. done. }
  split; [apply NoDup_map_filter; exact Hnodup|].
  split; [apply NoDup_map_filter; exact Hnodup|].
  split; [apply static_models_are_static|].
  apply (proj2 (select_optimal_model_total (Service.load_available env)
                  task_type strategy requested_model)).
  intros E. rewrite E in Hl. destruct Hl.
Qed.

(** X20. Without Redis a refresh changes nothing; with a store keyed by
    id, refreshing twice gives what refreshing once gives. *)
Theorem refresh_models_from_redis_idempotent (st : LibService.Registry) :
  (LibService.redis_client st = None ->
   LibService.refresh_models_from_redis st = st)
  /\ (forall store,
        LibService.redis_client st = Some store -> store_keyed store ->
        LibService.refresh_models_from_redis
          (LibService.refresh_models_from_redis st)
        = LibService.refresh_models_from_redis st).
Proof.
  split.
  - intros H. unfold LibService.refresh_models_from_redis. by rewrite H.
  - intros store Hredis Hk.
    unfold LibService.refresh_models_from_redis. rewrite Hredis. simpl.
    rewrite List.filter_app, filter_static_idem.
    rewrite (filter_static_dynamic (List.map snd (map_to_list store))).
    + by rewrite app_nil_r.
    + intros m Hm. by apply (loaded_models_are_dynamic store).
Qed.

Lemma refresh_models_from_redis_idempotent_witness :
  LibService.refresh_models_from_redis
    (LibService.refresh_models_from_redis
       (LibService.add_dynamic_model phi4 local_only))
  = LibService.refresh_models_from_redis
      (LibService.add_dynamic_model phi4 local_only).
Proof.
  apply (proj2 (refresh_models_from_redis_idempotent
                  (LibService.add_dynamic_model phi4 local_only))
           {[ "phi4:latest" := phi4 ]}).
  - vm_compute. reflexivity.
  - intros k d H. apply lookup_singleton_Some in H as [<- <-]. by split.
Defined.

(** X21. Registering a descriptor under an id that the store does not
    hold and removing that id again leaves the registry as a plain refresh
    would. *)
Theorem add_then_remove_restores (config : ModelConfig)
    (st : LibService.Registry) (store : gmap string ModelConfig) :
  LibService.redis_client st = Some store -> store_keyed store ->
  store !! model config = None ->
  LibService.remove_dynamic_model (model config)
    (LibService.add_dynamic_model config st)
  = LibService.refresh_models_from_redis st.
Proof.
  intros Hredis Hk Hfree.
  pose proof (store_keyed_insert store config Hk) as Hk'.
  unfold LibService.remove_dynamic_model, LibService.add_dynamic_model,
    LibService.refresh_models_from_redis.
  rewrite Hredis. simpl. rewrite lookup_insert_eq. simpl.
  rewrite delete_insert_id by done.
  rewrite List.filter_app, filter_static_idem.
  rewrite (filter_static_dynamic
             (List.map snd
                (map_to_list (<[model config := LibService.mark_dynamic config]>
                                store)))).
  - by rewrite app_nil_r.
  - intros m Hm. by apply (loaded_models_are_dynamic _ m Hk').
Qed.

Lemma add_then_remove_restores_witness :
  LibService.remove_dynamic_model (model phi4)
    (LibService.add_dynamic_model phi4 local_only)
  = LibService.refresh_models_from_redis local_only.
Proof.
  apply (add_then_remove_restores phi4 local_only ∅).
  - reflexivity.
  - exact store_keyed_empty.
  - apply lookup_empty.
Defined.

(** X22. The dynamic descriptors that the start-up loader reads from the
    [litellm:model:*] hashes are gone after the first refresh: the
    refreshed registry consists of the static entries and of what is
    stored under [dynamic_model:*], whatever the hashes were. *)
Theorem first_refresh_drops_startup_models (env : gset string)
    (hashes : list ModelConfig) (store : gmap string ModelConfig) :
  LibService.AVAILABLE_MODELS
    (LibService.refresh_models_from_redis
       (LibService.initial_registry env hashes (Some store)))
  = LibService.load_static_models env
    ++ LibService.load_dynamic_models (Some store).
Proof.
  unfold LibService.refresh_models_from_redis, LibService.initial_registry.
  simpl. rewrite List.filter_app.
  rewrite (filter_static_all (LibService.load_static_models env))
    by apply static_models_are_static.
  rewrite (filter_static_dynamic (List.map LibService.mark_dynamic hashes)).
  - by rewrite app_nil_r.
  - intros m Hm. apply in_map_iff in Hm as (h & <- & _). reflexivity.
Qed.

(** X23. Removing a dynamic model never touches the static entries;
    removing an id that is not stored changes nothing; and once a stored
    id has been removed, the only entries left with that id are static
    ones. *)
Theorem remove_dynamic_model_effect (name : string)
    (st : LibService.Registry) (store : gmap string ModelConfig) :
  LibService.redis_client st = Some store -> store_keyed store ->
  (store !! name = None -> LibService.remove_dynamic_model name st = st)
  /\ List.filter (fun m => negb (dynamic m))
       (LibService.AVAILABLE_MODELS (LibService.remove_dynamic_model name st))
     = List.filter (fun m => negb (dynamic m)) (LibService.AVAILABLE_MODELS st)
  /\ (is_Some (store !! name) ->
      forall m,
        In m (LibService.AVAILABLE_MODELS
                (LibService.remove_dynamic_model name st)) ->
        model m = name -> dynamic m = false).
Proof.
  intros Hredis Hk. unfold LibService.remove_dynamic_model. rewrite Hredis.
  destruct (store !! name) as [d|] eqn:E.
  - pose proof (store_keyed_delete store name Hk) as Hk'.
    split; [discriminate|]. split.
    + by rewrite (refresh_keeps_static _ (delete name store)).
    + intros _ m Hm Hname. unfold LibService.refresh_models_from_redis in Hm.
      simpl in Hm. apply in_app_or in Hm as [Hm|Hm].
      * apply filter_In in Hm as [_ Hm]. by apply negb_true_iff in Hm.
      * exfalso. apply in_map_iff in Hm as ([k d'] & <- & Hkd). simpl in *.
        apply list_elem_of_In, elem_of_map_to_list in Hkd.
        destruct (Hk' _ _ Hkd) as [Hmodel _]. rewrite Hname in Hmodel.
        subst k. by rewrite lookup_delete_eq in Hkd.
  - split; [reflexivity|]. split; [reflexivity|]. by intros [? ?].
Qed.

Lemma remove_dynamic_model_effect_witness :
  List.filter (fun m => negb (dynamic m))
    (LibService.AVAILABLE_MODELS
       (LibService.remove_dynamic_model "gpt-4o-mini"
          (LibService.add_dynamic_model gpt_again
             (LibService.initial_registry two_keys [] (Some ∅)))))
  = List.filter (fun m => negb (dynamic m))
      (LibService.AVAILABLE_MODELS
         (LibService.add_dynamic_model gpt_again
            (LibService.initial_registry two_keys [] (Some ∅)))).
Proof.
  destruct (remove_dynamic_model_effect "gpt-4o-mini"
              (LibService.add_dynamic_model gpt_again
                 (LibService.initial_registry two_keys [] (Some ∅)))
              {[ "gpt-4o-mini" := gpt_again ]}) as (_ & H & _).
  - vm_compute. reflexivity.
  - intros k d Hkd. apply lookup_singleton_Some in Hkd as [<- <-]. by split.
  - exact H.
Defined.

(** * Request parameters *)

(** X24. [apply_parameter_defaults] keeps every parameter of the request
    as it is; a parameter the request lacks receives the schema default
    when the schema gives one that is not null, except for [messages] and
    [model], which never receive a default; nothing else is added. *)
Theorem apply_parameter_defaults_lookup
    (request_data : gmap string LibService.json)
    (schema : gmap string (gmap string LibService.json)) (k : string) :
  LibService.apply_parameter_defaults request_data schema !! k
  = match request_data !! k with
    | Some v => Some v
    | None =>
        if bool_decide (k ∈ LibService.protected_fields) then None
        else
          match schema !! k ≫= (fun param_schema => param_schema !! "default") with
          | Some default_value =>
              if LibService.is_not_none default_value
              then Some default_value else None
          | None => None
          end
    end.
Proof.
  unfold LibService.apply_parameter_defaults. revert k.
  apply (map_fold_weak_ind
           (fun (r : gmap string LibService.json)
                (m : gmap string (gmap string LibService.json)) =>
              forall k,
                r !! k
                = match request_data !! k with
                  | Some v => Some v
                  | None =>
                      if bool_decide (k ∈ LibService.protected_fields) then None
                      else
                        match m !! k ≫= (fun ps => ps !! "default") with
                        | Some d =>
                            if LibService.is_not_none d then Some d else None
                        | None => None
                        end
                  end)).
  - intros k. rewrite lookup_empty. simpl.
    destruct (request_data !! k); [reflexivity|]. by case_bool_decide.
  - intros i x m r Hfresh IH k.
    unfold LibService.apply_default_step.
    destruct (decide (k = i)) as [->|Hne].
    + rewrite lookup_insert_eq. simpl.
      pose proof (IH i) as Hi. rewrite Hfresh in Hi. simpl in Hi.
      case_bool_decide as Hprot.
      * rewrite Hi. destruct (request_data !! i); reflexivity.
      * destruct (request_data !! i) as [v|] eqn:Ereq.
        -- by rewrite Hi.
        -- rewrite Hi. destruct (x !! "default") as [d|]; [|exact Hi].
           destruct (LibService.is_not_none d); [|exact Hi].
           apply lookup_insert_eq.
    + rewrite (lookup_insert_ne m) by done. rewrite <- (IH k).
      case_bool_decide; [reflexivity|].
      destruct (r !! i); [reflexivity|].
      destruct (x !! "default") as [d|]; [|reflexivity].
      destruct (LibService.is_not_none d); [|reflexivity].
      by rewrite lookup_insert_ne.
Qed.

(** X25. Applying the defaults a second time changes nothing. *)
Theorem apply_parameter_defaults_idempotent
    (request_data : gmap string LibService.json)
    (schema : gmap string (gmap string LibService.json)) :
  LibService.apply_parameter_defaults
    (LibService.apply_parameter_defaults request_data schema) schema
  = LibService.apply_parameter_defaults request_data schema.
Proof.
  apply map_eq. intros k.
  rewrite (apply_parameter_defaults_lookup
             (LibService.apply_parameter_defaults request_data schema)).
  destruct (LibService.apply_parameter_defaults request_data schema !! k)
    as [v|] eqn:E; [reflexivity|].
  rewrite apply_parameter_defaults_lookup in E.
  destruct (request_data !! k); [discriminate|]. exact E.
Qed.

(** X26. In [src/lib/litellm-service/app.py] the token limit of the
    outbound call never exceeds the limit of the selected model, and it is
    positive whenever the model's limit is positive and the request does
    not ask for a negative number of tokens. *)
Theorem lib_outbound_max_tokens_range (request : ChatRequest)
    (selected_model : ModelConfig) :
  kw_max_tokens (LibService.call_litellm request selected_model)
  <= max_tokens selected_model
  /\ (0 < max_tokens selected_model ->
      (forall n, request_max_tokens request = Some n -> 0 <= n) ->
      0 < kw_max_tokens (LibService.call_litellm request selected_model)).
Proof.
  simpl. unfold LibService.outbound_max_tokens.
  destruct (request_max_tokens request) as [n|].
  - destruct (n =? 0) eqn:E.
    + split; [lia|]. intros. lia.
    + apply Z.eqb_neq in E. split; [lia|].
      intros Hpos Hn. specialize (Hn n eq_refl). lia.
  - split; [lia|]. intros. lia.
Qed.

Lemma lib_outbound_max_tokens_range_witness :
  0 < kw_max_tokens
        (LibService.call_litellm greedy_request
           (nth 2 LibService.MODEL_CONFIGS unnamed_model)).
Proof.
  apply (proj2 (lib_outbound_max_tokens_range greedy_request
                  (nth 2 LibService.MODEL_CONFIGS unnamed_model))).
  - reflexivity.
  - intros n [= <-]. discriminate.
Defined.

(** The schema default fills in the temperature; the [model] default and
    the null [seed] default are not applied; [stream] stays as sent. *)
Example apply_parameter_defaults_sample :
  let result :=
    LibService.apply_parameter_defaults sample_request_data sample_schema in
  result !! "temperature" = Some (LibService.JFloat (7 # 10))
  /\ result !! "stream" = Some (LibService.JBool true)
  /\ result !! "model" = None
  /\ result !! "seed" = None
  /\ result !! "top_p" = None.
Proof. cbv zeta. repeat split; vm_compute; reflexivity. Qed.
